(** * Bastian: the prompt-templating and batch-generation pipeline of [app.py]

    A shallow embedding of the pipeline of [src/app.py]: the Python string
    methods it calls, the approved-link audit, the prompt formatting, the
    provider dispatch with its retry loop, the batch loop over topics and
    fields, and the configuration save and load functions.

    Conventions of the embedding.
    - A Python [str] is a list of Unicode code points ([N]); [lit] turns a
      literal into such a list.  Dictionary keys, which are literals in the
      source, are Rocq strings.
    - The vendor SDKs are an oracle: the outcome of the k-th API call and of
      the k-th client set-up is given by the environment, and every call and
      every [time.sleep] is recorded in a trace.
    - A cell of the topic table is text or a missing value; the other
      settings have the types that [init_session_state] gives them.
    - The Streamlit calls that only display text ([st.write], [st.error],
      [st.info], the progress bar) are left out. *)

From Stdlib Require Import ZArith NArith QArith Ascii String List Lia DecimalString.
From stdpp Require Import base option list gmap strings.

Local Open Scope N_scope.

Abbreviation char := N (only parsing).
Abbreviation str := (list N) (only parsing).

(** The code points of a literal. *)
Definition lit (s : string) : str := N_of_ascii <$> list_ascii_of_string s.
Arguments lit : simpl never.

(** ** Python string methods *)

Module PyStr.

(** [str.isspace] on one code point (CPython's [_PyUnicode_IsWhitespace]). *)
Definition isspace (c : char) : bool :=
  (9 <=? c) && (c <=? 13) || (28 <=? c) && (c <=? 32) || (c =? 133) || (c =? 160)
  || (c =? 5760) || (8192 <=? c) && (c <=? 8202) || (c =? 8232) || (c =? 8233)
  || (c =? 8239) || (c =? 8287) || (c =? 12288).

(** Line boundaries of [str.splitlines] ([_PyUnicode_IsLinebreak]). *)
Definition islinebreak (c : char) : bool :=
  (10 <=? c) && (c <=? 13) || (28 <=? c) && (c <=? 30) || (c =? 133)
  || (c =? 8232) || (c =? 8233).

Fixpoint lstrip (s : str) : str :=
  match s with
  | c :: s' => if isspace c then lstrip s' else s
  | [] => []
  end.

Definition rstrip (s : str) : str := rev (lstrip (rev s)).

(** [s.strip()] *)
Definition strip (s : str) : str := rstrip (lstrip s).

Fixpoint startswith (p s : str) : bool :=
  match p, s with
  | [], _ => true
  | _ :: _, [] => false
  | a :: p', b :: s' => (a =? b) && startswith p' s'
  end.

(** [needle in hay] *)
Fixpoint contains (needle hay : str) : bool :=
  startswith needle hay ||
  match hay with
  | [] => false
  | _ :: hay' => contains needle hay'
  end.

(** [s.splitlines()]: a carriage return directly followed by a line feed is
    one boundary; there is no empty last line. *)
Fixpoint splitlines_from (cur : str) (s : str) : list str :=
  match s with
  | [] => match cur with [] => [] | _ => [rev cur] end
  | c :: s' =>
      if islinebreak c then
        match s' with
        | d :: s'' =>
            if (c =? 13) && (d =? 10)
            then rev cur :: splitlines_from [] s''
            else rev cur :: splitlines_from [] s'
        | [] => [rev cur]
        end
      else splitlines_from (c :: cur) s'
  end.

Definition splitlines (s : str) : list str := splitlines_from [] s.

(** [s.split(sep, 1)] for a separator of one character. *)
Fixpoint split_1 (sep : char) (s : str) : list str :=
  match s with
  | [] => [[]]
  | c :: s' =>
      if c =? sep then [[]; s']
      else match split_1 sep s' with
           | h :: t => (c :: h) :: t
           | [] => [[c]]
           end
  end.

(** [l[0]] on the result of a split, which is never empty. *)
Definition item0 (l : list str) : str := default [] (head l).

(** [sep.join(l)] *)
Fixpoint join (sep : str) (l : list str) : str :=
  match l with
  | [] => []
  | x :: l' => match l' with [] => x | _ :: _ => x ++ sep ++ join sep l' end
  end.

(** [s.replace(old, new)] for a non-empty [old]: a scan from the left; where
    [old] starts, [new] is written and the scan goes on after the occurrence
    ([skip] counts the characters of the occurrence still to pass over). *)
Fixpoint replace_from (old new : str) (skip : nat) (s : str) : str :=
  match s with
  | [] => []
  | c :: s' =>
      match skip with
      | S k => replace_from old new k s'
      | O =>
          if startswith old s
          then new ++ replace_from old new (length old - 1) s'
          else c :: replace_from old new 0 s'
      end
  end.

(** With an empty [old], Python writes [new] before every character and at
    the end. *)
Definition replace (old new s : str) : str :=
  match old with
  | [] => new ++ concat ((λ c, c :: new) <$> s)
  | _ :: _ => replace_from old new 0 s
  end.

(** [str(n)] for an integer. *)
Definition str_of_int (n : Z) : str := lit (NilEmpty.string_of_int (Z.to_int n)).

End PyStr.

(** ** The approved-link audit (app.py, lines 597-615) *)

Definition colon : char := 58.

(** The loop that fills [approved_internal_urls_full] (and its external
    twin): one step per line of the raw list. *)
Definition approved_urls_step (acc : list str) (line : str) : list str :=
  if bool_decide (PyStr.strip line ≠ []) && PyStr.contains [colon] line
  then acc ++ [PyStr.strip (PyStr.item0 (PyStr.split_1 colon line))]
  else acc.

Definition approved_urls_full (raw : str) : list str :=
  foldl approved_urls_step [] (PyStr.splitlines raw).

(** [" | ".join([url for url in approved if url in generated_val])] *)
Definition found_links_in_html (approved : list str) (generated_val : str) : str :=
  PyStr.join (lit " | ") (filter (λ url, PyStr.contains url generated_val = true) approved).

(** The two derived fields, from the raw lists of the session and the
    generated body. *)
Definition audit_links (raw_internal raw_external generated_val : str) : str * str :=
  (found_links_in_html (approved_urls_full raw_internal) generated_val,
   found_links_in_html (approved_urls_full raw_external) generated_val).

(** ** The vendor back ends as an oracle *)

(** What one API call gives back: a response that carries text, a response
    without content (for Gemini with the block reason, ["Unknown"] when there
    is no feedback), or an exception with its message. *)
Inductive outcome :=
| Responded (text : str)
| NoContent (reason : str)
| Raised (detail : str).

Inductive provider := Gemini | OpenAI | Anthropic.

(** The module-level keys and the behaviour of the SDKs: [client_setup k] is
    the exception of the k-th client construction, if it raises, and
    [api_call k] the outcome of the k-th API call. *)
Record env := {
  GEMINI_API_KEY : option str;
  OPENAI_API_KEY : option str;
  ANTHROPIC_API_KEY : option str;
  client_setup : nat → option str;
  api_call : nat → outcome
}.

Inductive event :=
| ClientSetup (p : provider)
| ApiCall (p : provider) (prompt_text : str)
| Sleep (seconds : N)
| Pause.

(** The observable history: the events so far, oldest first. *)
Record world := { trace : list event }.

Definition is_api_call (e : event) : bool :=
  match e with ApiCall _ _ => true | _ => false end.

Definition is_client_setup (e : event) : bool :=
  match e with ClientSetup _ => true | _ => false end.

Definition api_calls (w : world) : nat := length (List.filter is_api_call (trace w)).
Definition client_setups (w : world) : nat := length (List.filter is_client_setup (trace w)).

(** A computation that reads and extends the history. *)
Definition M (A : Type) : Type := world → A * world.

Definition ret {A} (a : A) : M A := λ w, (a, w).
Definition bind {A B} (m : M A) (k : A → M B) : M B :=
  λ w, let '(a, w') := m w in k a w'.
Definition emit (e : event) : M unit := λ w, (tt, {| trace := trace w ++ [e] |}).

Notation "'let*' x ':=' m 'in' k" := (bind m (λ x, k))
  (at level 10, x name, m at level 100, k at level 200).
Notation "m ';;' k" := (bind m (λ _, k))
  (at level 100, k at level 200, right associativity).

(** ** [generate_content] (app.py, lines 160-288) *)

(** The return statements of [generate_content]. *)
Inductive gen_result :=
| Generated (generated_text : str)
| KeyMissing
| Blocked (reason : str)
| OpenAIEmpty
| AnthropicEmpty
| ApiFailed (detail : str)
| MaxRetries
| SetupError (detail : str)
| Unsupported.

(** The string each of them returns. *)
Definition render (r : gen_result) : str :=
  match r with
  | Generated generated_text => generated_text
  | KeyMissing => lit "ERROR: API Key missing."
  | Blocked reason => lit "ERROR: Blocked - " ++ reason
  | OpenAIEmpty => lit "ERROR: OpenAI response empty after retries."
  | AnthropicEmpty => lit "ERROR: Anthropic response empty/invalid after retries."
  | ApiFailed detail => lit "ERROR: API call failed - " ++ detail
  | MaxRetries => lit "ERROR: Max retries."
  | SetupError detail => lit "ERROR: Setup - " ++ detail
  | Unsupported => lit "ERROR: Unsupported model provider."
  end.

(** [not KEY]: the key is [None] or the empty string. *)
Definition key_missing (k : option str) : bool :=
  match k with
  | None | Some [] => true
  | Some (_ :: _) => false
  end.

Definition api_key (E : env) (p : provider) : option str :=
  match p with
  | Gemini => GEMINI_API_KEY E
  | OpenAI => OPENAI_API_KEY E
  | Anthropic => ANTHROPIC_API_KEY E
  end.

(** The [if]/[elif] chain on the model name. *)
Definition provider_of (model_name : str) : option provider :=
  if PyStr.contains (lit "gemini") model_name then Some Gemini
  else if PyStr.contains (lit "gpt") model_name then Some OpenAI
  else if PyStr.contains (lit "claude") model_name then Some Anthropic
  else None.

(** One pass through the body of the [try] inside the loop: either the
    function returns the stripped text, or the attempt has failed and
    [inr r] is what the function returns if this was the last attempt. *)
Definition classify (p : provider) (o : outcome) : str + gen_result :=
  match o with
  | Raised detail => inr (ApiFailed detail)
  | NoContent reason =>
      inr match p with
          | Gemini => Blocked reason
          | OpenAI => OpenAIEmpty
          | Anthropic => AnthropicEmpty
          end
  | Responded text =>
      match p with
      | Gemini => inl (PyStr.strip text)
      | OpenAI => match text with [] => inr OpenAIEmpty | _ :: _ => inl (PyStr.strip text) end
      | Anthropic => match text with [] => inr AnthropicEmpty | _ :: _ => inl (PyStr.strip text) end
      end
  end.

Section GenerateContent.

Variable E : env.

Definition do_client_setup (p : provider) : M (option str) :=
  λ w, (client_setup E (client_setups w), {| trace := trace w ++ [ClientSetup p] |}).

Definition do_api_call (p : provider) (prompt_text : str) : M outcome :=
  λ w, (api_call E (api_calls w), {| trace := trace w ++ [ApiCall p prompt_text] |}).

(** [for attempt in range(retries)]: [None] when the loop runs to its end
    without a [return]. *)
Fixpoint attempts (p : provider) (prompt_text : str) (retries : Z) (delay_seconds : N)
    (range : list nat) : M (option gen_result) :=
  match range with
  | [] => ret None
  | attempt :: range' =>
      let* o := do_api_call p prompt_text in
      match classify p o with
      | inl generated_text => ret (Some (Generated generated_text))
      | inr last =>
          if (Z.of_nat attempt <? retries - 1)%Z
          then emit (Sleep (delay_seconds * N.of_nat (attempt + 1)));;
               attempts p prompt_text retries delay_seconds range'
          else ret (Some last)
      end
  end.

Definition generate_result (prompt_text model_name : str) (temperature : Q)
    (retries : Z) (delay_seconds : N) : M gen_result :=
  match provider_of model_name with
  | None => ret Unsupported
  | Some p =>
      if key_missing (api_key E p) then ret KeyMissing
      else
        let* failure := do_client_setup p in
        match failure with
        | Some detail => ret (SetupError detail)
        | None =>
            let* r := attempts p prompt_text retries delay_seconds (seq 0 (Z.to_nat retries)) in
            ret (default MaxRetries r)
        end
  end.

(** What the caller receives. *)
Definition generate_content (prompt_text model_name : str) (temperature : Q)
    (retries : Z) (delay_seconds : N) : M str :=
  let* r := generate_result prompt_text model_name temperature retries delay_seconds in
  ret (render r).

End GenerateContent.

(** ** Dictionaries in insertion order, and the topic table *)

Module PyDict.
Section Dict.
Context {V : Type}.

Definition dict : Type := list (string * V).

(** [d.get(k)] *)
Fixpoint get (k : string) (d : dict) : option V :=
  match d with
  | [] => None
  | (k', v) :: d' => if bool_decide (k = k') then Some v else get k d'
  end.

(** [d[k] = v]: a known key keeps its place. *)
Fixpoint setitem (k : string) (v : V) (d : dict) : dict :=
  match d with
  | [] => [(k, v)]
  | (k', v') :: d' =>
      if bool_decide (k = k') then (k, v) :: d' else (k', v') :: setitem k v d'
  end.

Definition keys (d : dict) : list string := d.*1.

(** [dict(items)] *)
Definition of_items (items : list (string * V)) : dict :=
  foldl (λ d kv, setitem kv.1 kv.2 d) [] items.

End Dict.
Arguments dict : clear implicits.
End PyDict.

(** A cell of the topic table: text, or a missing value (pandas' NaN). *)
Inductive cell :=
| Text (s : str)
| NaN.

(** A [pandas.DataFrame] with the default positional index: its column
    labels and its rows, each with one cell per column. *)
Record DataFrame := {
  df_columns : list string;
  df_rows : list (list cell)
}.

(** [df.empty]: no column or no row. *)
Definition df_empty (df : DataFrame) : bool :=
  match df_columns df, df_rows df with
  | [], _ | _, [] => true
  | _ :: _, _ :: _ => false
  end.

(** [df.head(1)] *)
Definition df_head_1 (df : DataFrame) : DataFrame :=
  {| df_columns := df_columns df; df_rows := take 1 (df_rows df) |}.

(** [df.to_dict(orient='records')] *)
Definition to_dict_records (df : DataFrame) : list (PyDict.dict cell) :=
  (λ row, PyDict.of_items (zip (df_columns df) row)) <$> df_rows df.

(** [pd.DataFrame(records)] for a list of dictionaries: the columns are the
    keys in the order in which they first appear, and a key that a record
    lacks gives a missing value. *)
Definition add_column (cols : list string) (k : string) : list string :=
  if bool_decide (k ∈ cols) then cols else cols ++ [k].

Definition columns_of_records (records : list (PyDict.dict cell)) : list string :=
  foldl (λ cols d, foldl add_column cols (PyDict.keys d)) [] records.

Definition DataFrame_of_records (records : list (PyDict.dict cell)) : DataFrame :=
  let cols := columns_of_records records in
  {| df_columns := cols;
     df_rows := (λ d, (λ c, default NaN (PyDict.get c d)) <$> cols) <$> records |}.

(** ** The session state *)

(** The values a configuration document can hold. *)
Inductive value :=
| VNone
| VBool (b : bool)
| VInt (n : Z)
| VFloat (q : Q)
| VStr (s : str)
| VPrompts (m : gmap string str)
| VRecords (l : list (PyDict.dict cell)).

(** [st.session_state]: the ten keys that [init_session_state] types and
    the pipeline reads, and [others] for every further key
    ([run_mode], [config_loaded_successfully], [active_config_name], ...).
    The temperature is carried, never computed with. *)
Record SessionState := {
  model_name : str;
  topics_df : DataFrame;
  approved_internal_links : str;
  approved_external_links : str;
  brand_guidelines : str;
  seo_summary : str;
  target_internal_links : Z;
  target_external_links : Z;
  llm_temperature : Q;
  editable_prompts : gmap string str;
  others : gmap string value
}.

(** ** Prompt formatting (app.py, lines 585-594) *)

(** [s.replace(old, new)] where [new] comes from the topic table: Python
    raises a [TypeError] unless it is a [str]. *)
Definition replace_cell (old : str) (new : cell) (s : str) : option str :=
  match new with
  | Text v => Some (PyStr.replace old v s)
  | NaN => None
  end.

Definition fmt_prompt (st : SessionState) (prompt_template : str)
    (topic_input_val primary_keyword_val secondary_keywords_val : cell) : option str :=
  p ← replace_cell (lit "[TOPIC_INPUT]") topic_input_val prompt_template;
  p ← replace_cell (lit "[PRIMARY_KEYWORD]") primary_keyword_val p;
  p ← replace_cell (lit "[SECONDARY_KEYWORDS_LIST]") secondary_keywords_val p;
  let p := PyStr.replace (lit "[WORKSTREAM_BRAND_GUIDELINES]") (brand_guidelines st) p in
  let p := PyStr.replace (lit "[SEO_BEST_PRACTICES_SUMMARY]") (seo_summary st) p in
  let p := PyStr.replace (lit "[APPROVED_INTERNAL_LINKS_TEXT]") (approved_internal_links st) p in
  let p := PyStr.replace (lit "[APPROVED_EXTERNAL_LINKS_TEXT]") (approved_external_links st) p in
  let p := PyStr.replace (lit "[TARGET_NUMBER_INTERNAL_LINKS]")
             (PyStr.str_of_int (target_internal_links st)) p in
  let p := PyStr.replace (lit "[TARGET_NUMBER_EXTERNAL_LINKS]")
             (PyStr.str_of_int (target_external_links st)) p in
  Some p.

(** ** The batch (app.py, lines 553-619) *)

Definition FIELDS : list string :=
  ["page_title"; "meta_description"; "h1_tag"; "subtitle"; "alt_text"; "main_text_html"]%string.

(** How the run ends: [st.stop()] after a warning, an exception that nothing
    catches, or the list of output rows. *)
Inductive batch_result :=
| Stopped (warning : str)
| UncaughtTypeError
| Completed (all_generated_data_list : list (gmap string cell)).

Section Batch.

Variable E : env.
Variable st : SessionState.

(** The body of the loop over the fields; [None] when [str.replace] raises. *)
Definition generate_field (topic_input_val primary_keyword_val secondary_keywords_val : cell)
    (output_row : gmap string cell) (field_to_gen : string) : M (option (gmap string cell)) :=
  match editable_prompts st !! field_to_gen with
  | None | Some [] =>
      ret (Some (<[field_to_gen := Text (lit "ERROR: No Prompt")]> output_row))
  | Some prompt_template =>
      match fmt_prompt st prompt_template topic_input_val primary_keyword_val
              secondary_keywords_val with
      | None => ret None
      | Some p =>
          let* generated_val :=
            generate_content E p (model_name st) (llm_temperature st) 3 5 in
          let output_row := <[field_to_gen := Text generated_val]> output_row in
          let output_row :=
            if bool_decide (field_to_gen = "main_text_html"%string) then
              let found := audit_links (approved_internal_links st)
                             (approved_external_links st) generated_val in
              <["found_external_links_in_html"%string := Text found.2]>
                (<["found_internal_links_in_html"%string := Text found.1]> output_row)
            else output_row in
          emit Pause;;
          ret (Some output_row)
      end
  end.

Fixpoint generate_fields (topic_input_val primary_keyword_val secondary_keywords_val : cell)
    (output_row : gmap string cell) (fields : list string) : M (option (gmap string cell)) :=
  match fields with
  | [] => ret (Some output_row)
  | field_to_gen :: fields' =>
      let* r := generate_field topic_input_val primary_keyword_val secondary_keywords_val
                  output_row field_to_gen in
      match r with
      | None => ret None
      | Some output_row' =>
          generate_fields topic_input_val primary_keyword_val secondary_keywords_val
            output_row' fields'
      end
  end.

(** The body of the loop over the topics. *)
Definition generate_row (topic_row : PyDict.dict cell) : M (option (gmap string cell)) :=
  let topic_input_val := default (Text (lit "N/A")) (PyDict.get "topic_input" topic_row) in
  let primary_keyword_val := default (Text []) (PyDict.get "primary_keyword" topic_row) in
  let secondary_keywords_val := default (Text []) (PyDict.get "secondary_keywords" topic_row) in
  let output_row : gmap string cell :=
    <["secondary_keywords"%string := secondary_keywords_val]>
      (<["primary_keyword"%string := primary_keyword_val]>
         (<["topic_input"%string := topic_input_val]> ∅)) in
  generate_fields topic_input_val primary_keyword_val secondary_keywords_val output_row FIELDS.

Fixpoint generate_rows (all_generated_data_list : list (gmap string cell))
    (records : list (PyDict.dict cell)) : M batch_result :=
  match records with
  | [] => ret (Completed all_generated_data_list)
  | topic_row :: records' =>
      let* r := generate_row topic_row in
      match r with
      | None => ret UncaughtTypeError
      | Some output_row => generate_rows (all_generated_data_list ++ [output_row]) records'
      end
  end.

Definition first_only : bool :=
  match others st !! "run_mode"%string with
  | Some (VStr m) => bool_decide (m = lit "first_only")
  | _ => false
  end.

(** The block run when generation is triggered. *)
Definition run_generation : M batch_result :=
  let topics_df_to_process := topics_df st in
  if df_empty topics_df_to_process then
    ret (Stopped (lit "No topics to process. Please upload a CSV or add topics in the editor."))
  else
    let topics_df_to_process :=
      if first_only then df_head_1 topics_df_to_process else topics_df_to_process in
    if first_only && df_empty topics_df_to_process then
      ret (Stopped (lit "No topics available to test with 'First Topic Only'. Add topics to the editor."))
    else generate_rows [] (to_dict_records topics_df_to_process).

End Batch.

(** ** Saving and loading a configuration (app.py, lines 142-157) *)

Definition CONFIG_KEYS : list string :=
  ["model_name"; "approved_internal_links"; "approved_external_links";
   "brand_guidelines"; "seo_summary"; "target_internal_links";
   "target_external_links"; "llm_temperature"; "editable_prompts"]%string.

Definition TYPED_KEYS : list string := ("topics_df" :: CONFIG_KEYS)%string.

(** [st.session_state[key]] for the keys a configuration holds. *)
Definition getitem (st : SessionState) (key : string) : option value :=
  if bool_decide (key = "model_name"%string) then Some (VStr (model_name st))
  else if bool_decide (key = "approved_internal_links"%string) then Some (VStr (approved_internal_links st))
  else if bool_decide (key = "approved_external_links"%string) then Some (VStr (approved_external_links st))
  else if bool_decide (key = "brand_guidelines"%string) then Some (VStr (brand_guidelines st))
  else if bool_decide (key = "seo_summary"%string) then Some (VStr (seo_summary st))
  else if bool_decide (key = "target_internal_links"%string) then Some (VInt (target_internal_links st))
  else if bool_decide (key = "target_external_links"%string) then Some (VInt (target_external_links st))
  else if bool_decide (key = "llm_temperature"%string) then Some (VFloat (llm_temperature st))
  else if bool_decide (key = "editable_prompts"%string) then Some (VPrompts (editable_prompts st))
  else if bool_decide (key = "topics_df"%string) then None
  else others st !! key.

(** [key in st.session_state] *)
Definition in_session_state (key : string) (st : SessionState) : bool :=
  bool_decide (key ∈ TYPED_KEYS) || bool_decide (is_Some (others st !! key)).

Definition set_topics_df (df : DataFrame) (st : SessionState) : SessionState :=
  let 'Build_SessionState a _ c d e f g h i j k := st in Build_SessionState a df c d e f g h i j k.

Definition set_others (m : gmap string value) (st : SessionState) : SessionState :=
  let 'Build_SessionState a b c d e f g h i j _ := st in Build_SessionState a b c d e f g h i j m.

(** [st.session_state[key] = value].  The typed keys hold values of their
    own kind; storing a value of another kind in one of them is outside
    this model ([None]). *)
Definition setitem (key : string) (v : value) (st : SessionState) : option SessionState :=
  let 'Build_SessionState a b c d e f g h i j k := st in
  if bool_decide (key = "model_name"%string) then
    match v with VStr s => Some (Build_SessionState s b c d e f g h i j k) | _ => None end
  else if bool_decide (key = "approved_internal_links"%string) then
    match v with VStr s => Some (Build_SessionState a b s d e f g h i j k) | _ => None end
  else if bool_decide (key = "approved_external_links"%string) then
    match v with VStr s => Some (Build_SessionState a b c s e f g h i j k) | _ => None end
  else if bool_decide (key = "brand_guidelines"%string) then
    match v with VStr s => Some (Build_SessionState a b c d s f g h i j k) | _ => None end
  else if bool_decide (key = "seo_summary"%string) then
    match v with VStr s => Some (Build_SessionState a b c d e s g h i j k) | _ => None end
  else if bool_decide (key = "target_internal_links"%string) then
    match v with VInt n => Some (Build_SessionState a b c d e f n h i j k) | _ => None end
  else if bool_decide (key = "target_external_links"%string) then
    match v with VInt n => Some (Build_SessionState a b c d e f g n i j k) | _ => None end
  else if bool_decide (key = "llm_temperature"%string) then
    match v with VFloat q => Some (Build_SessionState a b c d e f g h q j k) | _ => None end
  else if bool_decide (key = "editable_prompts"%string) then
    match v with VPrompts m => Some (Build_SessionState a b c d e f g h i m k) | _ => None end
  else if bool_decide (key = "topics_df"%string) then None
  else Some (Build_SessionState a b c d e f g h i j (<[key := v]> k)).


(** The body of the loop over [config_dict.items()]. *)
Definition load_entry (st : SessionState) (entry : string * value) : option SessionState :=
  let '(key, v) := entry in
  if bool_decide (key = "topics_df_as_list"%string) then
    match v with
    | VRecords records => Some (set_topics_df (DataFrame_of_records records) st)
    | _ => None
    end
  else if in_session_state key st then setitem key v st
  else Some st.

Definition load_config_from_dict (config_dict : PyDict.dict value) (st : SessionState)
    : option SessionState :=
  st' ← foldl (λ acc entry, acc ≫= λ s, load_entry s entry) (Some st) config_dict;
  Some (set_others (<["config_loaded_successfully"%string := VBool true]> (others st')) st').

(** ** The Link Auditor in the words of the specification *)

(** [url] occurs in [body] as a substring. *)
Definition occurs_in (body url : str) : Prop :=
  ∃ before after, body = before ++ url ++ after.

(** The text of a line before its first colon. *)
Fixpoint text_before_first (sep : char) (line : str) : str :=
  match line with
  | [] => []
  | c :: line' => if c =? sep then [] else c :: text_before_first sep line'
  end.

(** The approved URLs of a raw list: for every non-blank line with a colon,
    in line order, the stripped text before the first colon. *)
Definition approved_urls_spec (raw : str) : list str :=
  (λ line, PyStr.strip (text_before_first colon line)) <$>
  filter (λ line, PyStr.strip line ≠ [] ∧ colon ∈ line) (PyStr.splitlines raw).

(** ** The retry policy in the words of the specification *)

(** What [n] failing attempts leave in the history, the first of them being
    attempt number [attempt] (counted from 0): a call per attempt and, after
    every attempt but the last, a wait of [delay_seconds * (attempt + 1)]. *)
Fixpoint failing_trace (p : provider) (prompt_text : str) (delay_seconds : N)
    (attempt n : nat) : list event :=
  match n with
  | O => []
  | S n' =>
      ApiCall p prompt_text ::
      match n' with
      | O => []
      | S _ => Sleep (delay_seconds * N.of_nat (attempt + 1)) ::
               failing_trace p prompt_text delay_seconds (S attempt) n'
      end
  end.

(** The waits of a history, in order. *)
Definition sleeps (t : list event) : list N :=
  omap (λ e, match e with Sleep seconds => Some seconds | _ => None end) t.

(** ** Templates in the words of the specification *)

Definition lbracket : char := 91.
Definition rbracket : char := 93.

(** The token of a name: the name in square brackets. *)
Definition token (name : str) : str := lbracket :: name ++ [rbracket].

(** A template read as literal text and bracketed placeholders. *)
Inductive segment :=
| Literal (text : str)
| Placeholder (name : str).

Definition render_segment (s : segment) : str :=
  match s with
  | Literal text => text
  | Placeholder name => token name
  end.

Definition render_template (segs : list segment) : str :=
  concat (render_segment <$> segs).

(** Every opening bracket of the template opens a placeholder: literal text
    has no ['['], a name has neither ['['] nor [']']. *)
Definition segment_ok (s : segment) : Prop :=
  match s with
  | Literal text => lbracket ∉ text
  | Placeholder name => (lbracket ∉ name) ∧ (rbracket ∉ name)
  end.

(** The generation context of a topic: the names of the fixed token set
    with their values, in the order of the [replace] calls. *)
Definition context (st : SessionState) (topic_input primary_keyword secondary_keywords : str)
    : list (str * str) :=
  [ (lit "TOPIC_INPUT", topic_input);
    (lit "PRIMARY_KEYWORD", primary_keyword);
    (lit "SECONDARY_KEYWORDS_LIST", secondary_keywords);
    (lit "WORKSTREAM_BRAND_GUIDELINES", brand_guidelines st);
    (lit "SEO_BEST_PRACTICES_SUMMARY", seo_summary st);
    (lit "APPROVED_INTERNAL_LINKS_TEXT", approved_internal_links st);
    (lit "APPROVED_EXTERNAL_LINKS_TEXT", approved_external_links st);
    (lit "TARGET_NUMBER_INTERNAL_LINKS", PyStr.str_of_int (target_internal_links st));
    (lit "TARGET_NUMBER_EXTERNAL_LINKS", PyStr.str_of_int (target_external_links st)) ].

Fixpoint context_value (ctx : list (str * str)) (name : str) : option str :=
  match ctx with
  | [] => None
  | (n, v) :: ctx' => if bool_decide (n = name) then Some v else context_value ctx' name
  end.

(** Resolution in one pass: a placeholder of the fixed set becomes its
    value, everything else stays. *)
Definition resolve_segment (ctx : list (str * str)) (s : segment) : segment :=
  match s with
  | Literal text => Literal text
  | Placeholder name =>
      match context_value ctx name with
      | Some v => Literal v
      | None => Placeholder name
      end
  end.

(** One [replace] call seen on the segments. *)
Definition replace_segment (name v : str) (s : segment) : segment :=
  match s with
  | Literal text => Literal text
  | Placeholder n => if bool_decide (n = name) then Literal v else Placeholder n
  end.

(** The free-text values of a context. *)
Definition context_texts (st : SessionState)
    (topic_input primary_keyword secondary_keywords : str) : list str :=
  [topic_input; primary_keyword; secondary_keywords; brand_guidelines st; seo_summary st;
   approved_internal_links st; approved_external_links st].

(** ** The topic table of the data model *)

Definition is_text (c : cell) : Prop := ∃ s, c = Text s.

(** Every cell of the table is text. *)
Definition text_cells (df : DataFrame) : Prop :=
  Forall (Forall is_text) (df_rows df).

(** A rectangular table with distinct column labels. *)
Definition df_wf (df : DataFrame) : Prop :=
  NoDup (df_columns df) ∧
  Forall (λ row, length row = length (df_columns df)) (df_rows df).

(** An output row holds text under a key. *)
Definition text_at (row : gmap string cell) (k : string) : Prop :=
  ∃ s, row !! k = Some (Text s).

(** ** Concrete environments and inputs used in the examples *)

Definition no_history : world := {| trace := [] |}.

(** A Gemini key, a client that is set up, and an API that always raises. *)
Definition env_always_raising : env :=
  {| GEMINI_API_KEY := Some (lit "secret-key");
     OPENAI_API_KEY := None;
     ANTHROPIC_API_KEY := None;
     client_setup := λ _, None;
     api_call := λ _, Raised (lit "timeout") |}.

(** A Gemini key but no OpenAI key. *)
Definition env_no_openai_key : env :=
  {| GEMINI_API_KEY := Some (lit "secret-key");
     OPENAI_API_KEY := None;
     ANTHROPIC_API_KEY := None;
     client_setup := λ _, None;
     api_call := λ _, Responded (lit "text") |}.

(** A model that answers with the text of an error marker. *)
Definition env_echoing_marker : env :=
  {| GEMINI_API_KEY := Some (lit "secret-key");
     OPENAI_API_KEY := None;
     ANTHROPIC_API_KEY := None;
     client_setup := λ _, None;
     api_call := λ _, Responded (lit "ERROR: Max retries.") |}.

(** A model that answers every prompt with the same short body. *)
Definition env_answering : env :=
  {| GEMINI_API_KEY := Some (lit "secret-key");
     OPENAI_API_KEY := None;
     ANTHROPIC_API_KEY := None;
     client_setup := λ _, None;
     api_call := λ _, Responded (lit "<p>see https://a.com</p>") |}.

Definition gemini_model : str := lit "gemini-2.5-pro-exp-03-25".
Definition gpt_model : str := lit "gpt-4.1".

(** A session with empty texts and no topic. *)
Definition blank_session : SessionState :=
  {| model_name := gemini_model;
     topics_df := {| df_columns := []; df_rows := [] |};
     approved_internal_links := [];
     approved_external_links := [];
     brand_guidelines := [];
     seo_summary := [];
     target_internal_links := 2;
     target_external_links := 1;
     llm_temperature := (3 # 5)%Q;
     editable_prompts := ∅;
     others := ∅ |}.

Definition line_feed : str := [10].

Definition two_topics : DataFrame :=
  {| df_columns := ["topic_input"; "primary_keyword"; "secondary_keywords"]%string;
     df_rows :=
       [ [Text (lit "how to hire baristas"); Text (lit "hire baristas");
          Text (lit "barista hiring process")];
         [Text (lit "how to hire line cooks"); Text (lit "hire line cooks");
          Text (lit "kitchen staffing")] ] |}.

(** A session with two topics, two templates and an internal link list. *)
Definition demo_session : SessionState :=
  {| model_name := gemini_model;
     topics_df := two_topics;
     approved_internal_links :=
       lit "https://a.com: A" ++ line_feed ++ lit "https://b.com: B" ++ line_feed;
     approved_external_links := lit "ERROR: the marker prefix";
     brand_guidelines := lit "Professional yet friendly";
     seo_summary := lit "Natural keyword integration";
     target_internal_links := 2;
     target_external_links := 1;
     llm_temperature := (3 # 5)%Q;
     editable_prompts :=
       <["main_text_html"%string := lit "Body about [TOPIC_INPUT]"]>
         (<["page_title"%string := lit "Title about [TOPIC_INPUT]"]> ∅);
     others := ∅ |}.

(** One topic whose secondary keywords were left empty in the CSV file:
    pandas reads the empty cell as a missing value. *)
Definition topic_without_secondary_keywords : DataFrame :=
  {| df_columns := ["topic_input"; "primary_keyword"; "secondary_keywords"]%string;
     df_rows := [ [Text (lit "how to hire baristas"); Text (lit "hire baristas"); NaN] ] |}.

Definition session_with_missing_cell : SessionState :=
  {| model_name := gemini_model;
     topics_df := topic_without_secondary_keywords;
     approved_internal_links := approved_internal_links demo_session;
     approved_external_links := approved_external_links demo_session;
     brand_guidelines := brand_guidelines demo_session;
     seo_summary := seo_summary demo_session;
     target_internal_links := 2;
     target_external_links := 1;
     llm_temperature := (3 # 5)%Q;
     editable_prompts := editable_prompts demo_session;
     others := ∅ |}.

(** A Gemini back end that raises, then blocks, then answers. *)
Definition env_flaky : env :=
  {| GEMINI_API_KEY := Some (lit "secret-key");
     OPENAI_API_KEY := Some (lit "other-key");
     ANTHROPIC_API_KEY := None;
     client_setup := λ _, None;
     api_call := λ k, match k with
                      | O => Raised (lit "timeout")
                      | S O => NoContent (lit "SAFETY")
                      | _ => Responded (lit "  <p>ok</p> ")
                      end |}.

(** A back end that blocks every prompt. *)
Definition env_blocking : env :=
  {| GEMINI_API_KEY := Some (lit "secret-key");
     OPENAI_API_KEY := Some (lit "other-key");
     ANTHROPIC_API_KEY := None;
     client_setup := λ _, None;
     api_call := λ _, NoContent (lit "SAFETY") |}.

(** A client whose construction raises. *)
Definition env_setup_raising : env :=
  {| GEMINI_API_KEY := Some (lit "secret-key");
     OPENAI_API_KEY := None;
     ANTHROPIC_API_KEY := None;
     client_setup := λ _, Some (lit "invalid key format");
     api_call := λ _, Responded (lit "text") |}.

(** The test mode, on a table whose second row has a missing cell. *)
Definition first_then_broken : DataFrame :=
  {| df_columns := ["topic_input"; "primary_keyword"; "secondary_keywords"]%string;
     df_rows :=
       [ [Text (lit "how to hire baristas"); Text (lit "hire baristas");
          Text (lit "barista hiring process")];
         [Text (lit "how to hire line cooks"); NaN; NaN] ] |}.

Definition test_mode_session : SessionState :=
  {| model_name := gemini_model;
     topics_df := first_then_broken;
     approved_internal_links := approved_internal_links demo_session;
     approved_external_links := approved_external_links demo_session;
     brand_guidelines := brand_guidelines demo_session;
     seo_summary := seo_summary demo_session;
     target_internal_links := 2;
     target_external_links := 1;
     llm_temperature := (3 # 5)%Q;
     editable_prompts := editable_prompts demo_session;
     others := <["run_mode"%string := VStr (lit "first_only")]> ∅ |}.

(** A document that names the model and carries a key the session lacks. *)
Definition partial_document : PyDict.dict value :=
  [("model_name"%string, VStr (lit "gpt-4.1")); ("colour_theme"%string, VStr (lit "dark"))].

(** A document whose topic list is empty. *)
Definition document_without_topics : PyDict.dict value :=
  [("brand_guidelines"%string, VStr (lit "Plain and direct"));
   ("topics_df_as_list"%string, VRecords [])].

(** An uploaded table with a column too many and two columns missing. *)
Definition uploaded_table : DataFrame :=
  {| df_columns := ["notes"; "topic_input"]%string;
     df_rows := [ [Text (lit "draft"); Text (lit "how to hire baristas")];
                  [NaN; Text (lit "how to hire line cooks")] ] |}.

(** ** Reading the batch: what a row needs and what a run costs *)

(** [prompt_template] is there and not empty. *)
Definition has_template (st : SessionState) (field_to_gen : string) : bool :=
  match editable_prompts st !! field_to_gen with
  | Some (_ :: _) => true
  | _ => false
  end.

Definition cell_is_text (c : cell) : bool :=
  match c with Text _ => true | NaN => false end.

(** The three values the loop reads from a topic row. *)
Definition topic_input_of (topic_row : PyDict.dict cell) : cell :=
  default (Text (lit "N/A")) (PyDict.get "topic_input" topic_row).
Definition primary_keyword_of (topic_row : PyDict.dict cell) : cell :=
  default (Text []) (PyDict.get "primary_keyword" topic_row).
Definition secondary_keywords_of (topic_row : PyDict.dict cell) : cell :=
  default (Text []) (PyDict.get "secondary_keywords" topic_row).

(** A row raises when some field has a template and one of the three values
    is not text. *)
Definition row_raises (st : SessionState) (topic_row : PyDict.dict cell) : bool :=
  existsb (has_template st) FIELDS &&
  negb (cell_is_text (topic_input_of topic_row) &&
        cell_is_text (primary_keyword_of topic_row) &&
        cell_is_text (secondary_keywords_of topic_row)).

(** The output row before any field is generated. *)
Definition initial_row (topic_row : PyDict.dict cell) : gmap string cell :=
  <["secondary_keywords"%string := secondary_keywords_of topic_row]>
    (<["primary_keyword"%string := primary_keyword_of topic_row]>
       (<["topic_input"%string := topic_input_of topic_row]> ∅)).

(** The output row of a topic when no field has a template. *)
Definition no_prompt_row (topic_row : PyDict.dict cell) : gmap string cell :=
  foldl (λ row f, <[f := Text (lit "ERROR: No Prompt")]> row) (initial_row topic_row) FIELDS.

(** The seconds of back-off in a history. *)
Definition total_sleep (t : list event) : N := foldr N.add 0 (sleeps t).

Definition pauses (t : list event) : nat :=
  length (List.filter (λ e, match e with Pause => true | _ => false end) t).

(** The keys of the two derived fields. *)
Definition derived_key (k : string) : Prop :=
  k = "found_internal_links_in_html"%string ∨ k = "found_external_links_in_html"%string.

(** What an output row holds for its topic row: the three topic values, a
    value under each of the six fields, and the two derived fields exactly
    when [main_text_html] has a template. *)
Definition row_shape (st : SessionState) (topic_row : PyDict.dict cell)
    (output_row : gmap string cell) : Prop :=
  output_row !! "topic_input"%string = Some (topic_input_of topic_row) ∧
  output_row !! "primary_keyword"%string = Some (primary_keyword_of topic_row) ∧
  output_row !! "secondary_keywords"%string = Some (secondary_keywords_of topic_row) ∧
  (∀ f, f ∈ FIELDS → is_Some (output_row !! f)) ∧
  (is_Some (output_row !! "found_internal_links_in_html"%string) ↔
   has_template st "main_text_html" = true) ∧
  (is_Some (output_row !! "found_external_links_in_html"%string) ↔
   has_template st "main_text_html" = true).

(** The rows a run reads: all of them, or the first one in the test mode. *)
Definition rows_processed (st : SessionState) : nat :=
  let n := length (df_rows (topics_df st)) in
  if first_only st then Nat.min 1 n else n.

(** [w'] is [w] after at most [calls] API calls and [seconds] of back-off. *)
Definition within (calls : nat) (seconds : N) (w w' : world) : Prop :=
  (api_calls w' ≤ api_calls w + calls)%nat ∧
  total_sleep (trace w') ≤ total_sleep (trace w) + seconds.

(** ** The rest of the script around the pipeline *)

(** *** [init_session_state] (app.py, lines 111-136) *)

(** [pd.read_csv(io.StringIO(DEFAULT_TOPICS_KEYWORDS_CSV_STRING))]: the
    header line and the two example rows, the quoted third field of each
    row read as one cell. *)
Definition DEFAULT_TOPICS_DF : DataFrame :=
  {| df_columns := ["topic_input"; "primary_keyword"; "secondary_keywords"]%string;
     df_rows :=
       [ [Text (lit "how to hire baristas"); Text (lit "hire baristas");
          Text (lit "barista hiring process, qualities of a good barista, interview questions for baristas")];
         [Text (lit "how to hire line cooks"); Text (lit "hire line cooks");
          Text (lit "line cook job duties, kitchen staffing, culinary team building")] ] |}.

(** [if key not in st.session_state: st.session_state[key] = default_value] *)
Definition setdefault (key : string) (default_value : value) (m : gmap string value)
    : gmap string value :=
  match m !! key with
  | Some _ => m
  | None => <[key := default_value]> m
  end.

(** On a session that holds the ten typed keys: the three other defaults
    are filled in where they are missing, and an empty topic table is
    replaced by the default one. *)
Definition init_session_state (st : SessionState) : SessionState :=
  let st :=
    set_others
      (setdefault "active_config_name" (VStr (lit "Defaults"))
         (setdefault "config_loaded_successfully" (VBool false)
            (setdefault "uploaded_topics_filename" VNone (others st)))) st in
  if df_empty (topics_df st) then set_topics_df DEFAULT_TOPICS_DF st else st.

(** *** The topics upload (app.py, lines 480-487) *)

Definition TOPIC_COLUMNS : list string :=
  ["topic_input"; "primary_keyword"; "secondary_keywords"]%string.

(** [df[col] = v] for a label that is not a column yet. *)
Definition df_add_column (col : string) (v : cell) (df : DataFrame) : DataFrame :=
  {| df_columns := df_columns df ++ [col];
     df_rows := (λ row, row ++ [v]) <$> df_rows df |}.

(** [if col not in df.columns: df[col] = ""] *)
Definition ensure_column (df : DataFrame) (col : string) : DataFrame :=
  if bool_decide (col ∈ df_columns df) then df else df_add_column col (Text []) df.

(** [df[cols]] for a list of labels; [None] is pandas' [KeyError] for a
    label that is not a column. *)
Definition df_select (cols : list string) (df : DataFrame) : option DataFrame :=
  if forallb (λ c, bool_decide (c ∈ df_columns df)) cols then
    Some {| df_columns := cols;
            df_rows := (λ row, (λ c, default NaN (PyDict.get c (zip (df_columns df) row)))
                                 <$> cols) <$> df_rows df |}
  else None.

(** What becomes [st.session_state.topics_df] after [pd.read_csv] gave [df]. *)
Definition uploaded_topics (df : DataFrame) : option DataFrame :=
  df_select TOPIC_COLUMNS (foldl ensure_column df TOPIC_COLUMNS).

(** *** The model selector (app.py, lines 455-460) *)

Definition MODEL_OPTIONS : list str :=
  [lit "gemini-2.5-pro-exp-03-25"; lit "gpt-4.1"; lit "claude-3-7-sonnet-20250219"].

(** [l.index(x)]; [None] is the [ValueError] for an absent element. *)
Fixpoint list_index (x : str) (l : list str) : option nat :=
  match l with
  | [] => None
  | y :: l' => if bool_decide (x = y) then Some O else S <$> list_index x l'
  end.

(** The [index=] argument of the select box. *)
Definition selector_index (model_name : str) : option nat :=
  list_index
    (if bool_decide (model_name ∈ MODEL_OPTIONS) then model_name
     else lit "gemini-2.5-pro-exp-03-25")
    MODEL_OPTIONS.

(** *** Reading a document entry by entry *)

(** The loop of [load_config_from_dict] alone, before the flag is set. *)
Definition load_entries (config_dict : PyDict.dict value) (st : SessionState)
    : option SessionState :=
  foldl (λ acc entry, acc ≫= λ s, load_entry s entry) (Some st) config_dict.

(** The cell of a row under a column label. *)
Definition cell_at (df : DataFrame) (row : list cell) (c : string) : option cell :=
  PyDict.get c (zip (df_columns df) row).

(** ** Sessions for the configuration round trip *)



(** * Properties *)

(** ** Python string methods *)

Lemma startswith_prefix (p s : str) :
  PyStr.startswith p s = true ↔ ∃ k, s = p ++ k.
Proof.
  revert s. induction p as [|a p IH]; intros s; simpl.
  - split; [eauto | done].
  - destruct s as [|b s].
    + split; [done | intros [k Hk]; discriminate].
    + rewrite andb_true_iff, N.eqb_eq, IH. split.
      * intros [-> [k ->]]. by exists k.
      * intros [k Hk]. injection Hk as -> ->. eauto.
Qed.

Lemma contains_occurs_in (needle hay : str) :
  PyStr.contains needle hay = true ↔ occurs_in hay needle.
Proof.
  unfold occurs_in. induction hay as [|c hay IH]; simpl.
  - rewrite orb_false_r, startswith_prefix. split.
    + intros [k Hk]. by exists [], k.
    + intros (before & after & H). symmetry in H.
      apply app_eq_nil in H as [-> H]. apply app_eq_nil in H as [-> ->]. by exists [].
  - rewrite orb_true_iff, startswith_prefix, IH. split.
    + intros [[k Hk] | (before & after & ->)].
      * by exists [], k.
      * by exists (c :: before), after.
    + intros (before & after & H). destruct before as [|b before].
      * left. by exists after.
      * injection H as -> ->. right. by exists before, after.
Qed.

Lemma contains_char (c : char) (s : str) :
  PyStr.contains [c] s = true ↔ c ∈ s.
Proof.
  rewrite contains_occurs_in. unfold occurs_in. split.
  - intros (before & after & ->). set_solver.
  - intros (before & after & ->)%list_elem_of_split. by exists before, after.
Qed.

Lemma split_1_item0 (sep : char) (s : str) :
  PyStr.item0 (PyStr.split_1 sep s) = text_before_first sep s.
Proof.
  induction s as [|c s IH]; simpl; [done|].
  destruct (c =? sep); [done|].
  destruct (PyStr.split_1 sep s) as [|h t]; simpl in *; [by rewrite <- IH | by rewrite <- IH].
Qed.

Lemma text_before_first_split (sep : char) (s : str) :
  sep ∈ s →
  ∃ rest, s = text_before_first sep s ++ sep :: rest ∧ sep ∉ text_before_first sep s.
Proof.
  induction s as [|c s IH]; intros Hin; [by apply elem_of_nil in Hin|].
  simpl. destruct (N.eqb_spec c sep) as [->|Hne].
  - exists s. split; [done | apply not_elem_of_nil].
  - apply elem_of_cons in Hin as [->|Hin]; [done|].
    destruct (IH Hin) as (rest & Hs & Hnot). exists rest. split.
    + simpl. by rewrite <- Hs.
    + intros [?|?]%elem_of_cons; [by subst | done].
Qed.

(** ** The approved-link audit *)

Lemma approved_urls_step_spec (acc : list str) (lines : list str) :
  foldl approved_urls_step acc lines =
  acc ++ ((λ line, PyStr.strip (text_before_first colon line)) <$>
          filter (λ line, PyStr.strip line ≠ [] ∧ colon ∈ line) lines).
Proof.
  revert acc. induction lines as [|line lines IH]; intros acc; simpl.
  - by rewrite app_nil_r.
  - rewrite IH, filter_cons. unfold approved_urls_step.
    rewrite split_1_item0.
    destruct (decide (PyStr.strip line ≠ [] ∧ colon ∈ line)) as [[H1 H2]|Hn].
    + rewrite bool_decide_true by done.
      apply contains_char in H2. rewrite H2. simpl. by rewrite <- app_assoc.
    + destruct (bool_decide_reflect (PyStr.strip line ≠ [])) as [H1|H1]; simpl; [|done].
      destruct (PyStr.contains [colon] line) eqn:H2; [|done].
      apply contains_char in H2. by destruct Hn.
Qed.

Lemma approved_urls_full_spec (raw : str) :
  approved_urls_full raw = approved_urls_spec raw.
Proof. unfold approved_urls_full. by rewrite approved_urls_step_spec. Qed.

(** C1 (the code at the stated input).  With the internal list
    ["https://a.com: A"], ["https://b.com: B"] and a body that contains
    ["https://a.com"], the first colon of each line is the one of the scheme:
    both approved entries become ["https"], both occur in the body, and the
    internal field is ["https | https"], not ["https://a.com"]. *)
Theorem audit_links_scheme_colon :
  let raw_internal := lit "https://a.com: A" ++ [10] ++ lit "https://b.com: B" in
  let body := lit "...see https://a.com for more..." in
  approved_urls_full raw_internal = [lit "https"; lit "https"] ∧
  audit_links raw_internal [] body = (lit "https | https", []) ∧
  (audit_links raw_internal [] body).1 ≠ lit "https://a.com".
Proof. vm_compute. split_and!; [done | done | discriminate]. Qed.

(** C3.  The audit reads each raw list line by line, keeps the non-blank
    lines with a colon, takes the stripped text before the first colon of
    each, keeps the entries that occur in the body as substrings, in the
    order of the list and with repetitions, and joins them with [" | "]. *)
Theorem audit_links_spec (raw_internal raw_external body : str) :
  approved_urls_full raw_internal = approved_urls_spec raw_internal ∧
  approved_urls_full raw_external = approved_urls_spec raw_external ∧
  (∀ line, colon ∈ line →
     ∃ rest, line = PyStr.item0 (PyStr.split_1 colon line) ++ colon :: rest ∧
             colon ∉ PyStr.item0 (PyStr.split_1 colon line)) ∧
  (∀ url, PyStr.contains url body = true ↔ occurs_in body url) ∧
  audit_links raw_internal raw_external body =
    (PyStr.join (lit " | ")
       (filter (λ url, PyStr.contains url body = true) (approved_urls_spec raw_internal)),
     PyStr.join (lit " | ")
       (filter (λ url, PyStr.contains url body = true) (approved_urls_spec raw_external))).
Proof.
  split_and!.
  - apply approved_urls_full_spec.
  - apply approved_urls_full_spec.
  - intros line Hin. rewrite split_1_item0. by apply text_before_first_split.
  - intros url. apply contains_occurs_in.
  - unfold audit_links, found_links_in_html. by rewrite !approved_urls_full_spec.
Qed.

(** ** [generate_content] *)

Lemma api_calls_app (w : world) (t : list event) :
  api_calls {| trace := trace w ++ t |} = (api_calls w + length (List.filter is_api_call t))%nat.
Proof. unfold api_calls. simpl. by rewrite List.filter_app, length_app. Qed.

Lemma failing_trace_api_calls p prompt_text delay_seconds attempt n :
  length (List.filter is_api_call (failing_trace p prompt_text delay_seconds attempt n)) = n.
Proof.
  revert attempt. induction n as [|n IH]; intros attempt; [done|].
  simpl. destruct n as [|n]; [done|]. cbn [List.filter is_api_call length].
  by rewrite IH.
Qed.

Lemma failing_trace_sleeps p prompt_text delay_seconds attempt n :
  sleeps (failing_trace p prompt_text delay_seconds attempt n) =
  (λ i, delay_seconds * N.of_nat i) <$> seq (attempt + 1) (n - 1).
Proof.
  revert attempt. induction n as [|n IH]; intros attempt; [done|].
  simpl. destruct n as [|n]; [done|].
  unfold sleeps in *. cbn [omap list_omap]. rewrite IH. simpl.
  by rewrite Nat.sub_0_r.
Qed.

Section GenerateContentFacts.

Variable E : env.

(** One turn of the loop. *)
Lemma attempts_cons p prompt_text retries delay_seconds attempt range w :
  attempts E p prompt_text retries delay_seconds (attempt :: range) w =
  let w1 := {| trace := trace w ++ [ApiCall p prompt_text] |} in
  match classify p (api_call E (api_calls w)) with
  | inl generated_text => (Some (Generated generated_text), w1)
  | inr last =>
      if (Z.of_nat attempt <? retries - 1)%Z
      then attempts E p prompt_text retries delay_seconds range
             {| trace := trace w1 ++ [Sleep (delay_seconds * N.of_nat (attempt + 1))] |}
      else (Some last, w1)
  end.
Proof.
  simpl. unfold bind at 1. unfold do_api_call.
  destruct (classify p (api_call E (api_calls w))); [done|].
  by destruct (Z.of_nat attempt <? retries - 1)%Z.
Qed.

(** The loop, when every call raises. *)
Lemma attempts_all_raise p prompt_text retries delay_seconds (details : nat → str) :
  (∀ k, api_call E k = Raised (details k)) →
  ∀ n attempt w,
    Z.of_nat (attempt + S n) = retries →
    attempts E p prompt_text retries delay_seconds (seq attempt (S n)) w =
    (Some (ApiFailed (details (api_calls w + n)%nat)),
     {| trace := trace w ++ failing_trace p prompt_text delay_seconds attempt (S n) |}).
Proof.
  intros Hraise. induction n as [|n IH]; intros attempt w Hretries;
    rewrite <- cons_seq, attempts_cons, Hraise; cbn [classify].
  - replace (Z.of_nat attempt <? retries - 1)%Z with false by (symmetry; apply Z.ltb_ge; lia).
    by rewrite Nat.add_0_r.
  - replace (Z.of_nat attempt <? retries - 1)%Z with true by (symmetry; apply Z.ltb_lt; lia).
    rewrite IH by lia. cbn [trace]. f_equal.
    + do 3 f_equal. unfold api_calls. cbn [trace].
      rewrite !List.filter_app, !length_app. simpl. lia.
    + f_equal. by rewrite <- !app_assoc.
Qed.

(** With at least one attempt to make, the loop ends in a [return]; the
    text it returns, if any, is the stripped text of a response. *)
Lemma attempts_return p prompt_text retries delay_seconds :
  ∀ n attempt w,
    Z.of_nat (attempt + S n) = retries →
    ∃ r w',
      attempts E p prompt_text retries delay_seconds (seq attempt (S n)) w = (Some r, w') ∧
      r ≠ MaxRetries ∧
      (∀ t, r = Generated t → ∃ k text, api_call E k = Responded text ∧ PyStr.strip text = t).
Proof.
  induction n as [|n IH]; intros attempt w Hretries;
    rewrite <- cons_seq, attempts_cons; cbn zeta.
  - replace (Z.of_nat attempt <? retries - 1)%Z with false by (symmetry; apply Z.ltb_ge; lia).
    destruct (api_call E (api_calls w)) as [text|reason|detail] eqn:Ho;
      destruct p; simpl; try destruct text; simpl;
      eexists _, _; (split; [reflexivity|]); (split; [done|]);
      intros t Ht; try discriminate; injection Ht as <-; eauto.
  - replace (Z.of_nat attempt <? retries - 1)%Z with true by (symmetry; apply Z.ltb_lt; lia).
    destruct (classify p (api_call E (api_calls w))) as [t|last] eqn:Hc.
    + eexists _, _. split; [reflexivity|]. split; [done|].
      intros t' Ht'. injection Ht' as <-.
      destruct (api_call E (api_calls w)) as [text|reason|detail] eqn:Ho;
        destruct p; simpl in Hc; try destruct text; try discriminate;
        injection Hc as <-; eauto.
    + apply IH. lia.
Qed.

Lemma render_max_retries (r : gen_result) :
  render r = lit "ERROR: Max retries." → r = MaxRetries ∨ r = Generated (lit "ERROR: Max retries.").
Proof.
  destruct r; simpl; intros H; try (vm_compute in H; discriminate); auto.
  right. by rewrite H.
Qed.

End GenerateContentFacts.

(** C4.  With a configured key, a client that is set up and an API that
    raises at every call, [generate_content] with [retries >= 1] makes
    exactly [retries] calls, sleeps [delay_seconds * i] after the i-th
    attempt for every attempt but the last, and returns
    ["ERROR: API call failed - "] followed by the message of the last
    exception. *)
Theorem generate_content_all_raise (E : env) (prompt_text model_name : str) (temperature : Q)
    (retries : Z) (delay_seconds : N) (p : provider) (details : nat → str) (w : world) :
  provider_of model_name = Some p →
  key_missing (api_key E p) = false →
  client_setup E (client_setups w) = None →
  (∀ k, api_call E k = Raised (details k)) →
  (1 ≤ retries)%Z →
  let n := Z.to_nat retries in
  let r := generate_content E prompt_text model_name temperature retries delay_seconds w in
  r.1 = lit "ERROR: API call failed - " ++ details (api_calls w + n - 1)%nat ∧
  trace r.2 = trace w ++ ClientSetup p :: failing_trace p prompt_text delay_seconds 0 n ∧
  api_calls r.2 = (api_calls w + n)%nat ∧
  sleeps (trace r.2) =
    sleeps (trace w) ++ ((λ i, delay_seconds * N.of_nat i) <$> seq 1 (n - 1)).
Proof.
  intros Hp Hkey Hsetup Hraise Hretries n r.
  destruct (Z.to_nat retries) as [|m] eqn:Hn; [lia|]. subst n.
  assert (Hr : r = (lit "ERROR: API call failed - " ++ details (api_calls w + m)%nat,
                    {| trace := trace w ++ ClientSetup p ::
                                failing_trace p prompt_text delay_seconds 0 (S m) |})).
  { subst r. unfold generate_content, generate_result. rewrite Hp, Hkey.
    unfold bind at 1 2. unfold do_client_setup at 1. rewrite Hsetup.
    unfold bind at 1. rewrite Hn.
    rewrite (attempts_all_raise E p prompt_text retries delay_seconds details Hraise) by lia.
    unfold ret. cbn [default from_option render id]. f_equal.
    - do 3 f_equal. unfold api_calls. cbn [trace].
      rewrite List.filter_app, length_app. simpl. lia.
    - cbn [trace]. by rewrite <- app_assoc. }
  rewrite Hr. cbn [fst snd trace]. split_and!.
  - do 2 f_equal. lia.
  - done.
  - unfold api_calls. cbn [trace]. rewrite List.filter_app, length_app.
    cbn [List.filter is_api_call]. by rewrite failing_trace_api_calls.
  - unfold sleeps. rewrite omap_app. cbn [omap list_omap].
    fold (sleeps (failing_trace p prompt_text delay_seconds 0 (S m))).
    by rewrite failing_trace_sleeps.
Qed.

Lemma generate_content_all_raise_witness :
  let r := generate_content env_always_raising (lit "prompt") gemini_model (3 # 5) 3 5 no_history in
  r.1 = lit "ERROR: API call failed - " ++ lit "timeout" ∧
  trace r.2 =
    [ClientSetup Gemini; ApiCall Gemini (lit "prompt"); Sleep 5;
     ApiCall Gemini (lit "prompt"); Sleep 10; ApiCall Gemini (lit "prompt")] ∧
  api_calls r.2 = 3%nat ∧
  sleeps (trace r.2) = [5; 10].
Proof.
  apply (generate_content_all_raise env_always_raising (lit "prompt") gemini_model (3 # 5)
           3 5 Gemini (λ _, lit "timeout") no_history);
    [reflexivity | reflexivity | reflexivity | intros k; reflexivity | lia].
Defined.

(** Without a key the function returns before the
    loop: the number of API calls does not go up by one, it stays as it is. *)
Lemma key_missing_not_one_call :
  ¬ (∀ (E : env) (prompt_text model_name : str) (temperature : Q) (retries : Z)
       (delay_seconds : N) (p : provider) (w : world),
       provider_of model_name = Some p →
       key_missing (api_key E p) = true →
       api_calls (generate_content E prompt_text model_name temperature retries
                    delay_seconds w).2 = (api_calls w + 1)%nat).
Proof.
  intros H.
  specialize (H env_no_openai_key (lit "prompt") gpt_model (3 # 5) 3%Z 5 OpenAI no_history
                eq_refl eq_refl).
  vm_compute in H. discriminate.
Qed.

(** C6 (amended).  When the key of the selected provider is missing,
    [generate_content] returns ["ERROR: API Key missing."] and leaves the
    history as it was: no client is set up, no API call is attempted and
    there is no wait, whatever [retries] is. *)
Theorem generate_content_key_missing (E : env) (prompt_text model_name : str)
    (temperature : Q) (retries : Z) (delay_seconds : N) (p : provider) (w : world) :
  provider_of model_name = Some p →
  key_missing (api_key E p) = true →
  generate_content E prompt_text model_name temperature retries delay_seconds w =
    (lit "ERROR: API Key missing.", w).
Proof.
  intros Hp Hkey. unfold generate_content, generate_result, bind. by rewrite Hp, Hkey.
Qed.

Lemma generate_content_key_missing_witness :
  generate_content env_no_openai_key (lit "prompt") gpt_model (3 # 5) 100 5 no_history =
    (lit "ERROR: API Key missing.", no_history).
Proof.
  apply (generate_content_key_missing env_no_openai_key (lit "prompt") gpt_model (3 # 5)
           100 5 OpenAI no_history); reflexivity.
Defined.

(** A response whose text is the marker itself is
    returned as it is. *)
Lemma max_retries_text_returned :
  ¬ (∀ (E : env) (prompt_text model_name : str) (temperature : Q) (retries : Z)
       (delay_seconds : N) (w : world),
       (1 ≤ retries)%Z →
       (generate_content E prompt_text model_name temperature retries delay_seconds w).1
         ≠ lit "ERROR: Max retries.").
Proof.
  intros H.
  apply (H env_echoing_marker (lit "prompt") gemini_model (3 # 5) 3%Z 5 no_history); [lia|].
  vm_compute. reflexivity.
Qed.

(** C10 (amended).  With [retries >= 1] the statement after the loop is never
    reached, in any provider branch and for any outcomes of the calls; the
    string ["ERROR: Max retries."] is returned only when a response carries
    it as its text. *)
Theorem max_retries_unreachable (E : env) (prompt_text model_name : str) (temperature : Q)
    (retries : Z) (delay_seconds : N) (w : world) :
  (1 ≤ retries)%Z →
  (generate_result E prompt_text model_name temperature retries delay_seconds w).1
    ≠ MaxRetries ∧
  ((generate_content E prompt_text model_name temperature retries delay_seconds w).1
     = lit "ERROR: Max retries." →
   ∃ k text, api_call E k = Responded text ∧ PyStr.strip text = lit "ERROR: Max retries.").
Proof.
  intros Hretries.
  assert (Hres : ∃ r w',
             generate_result E prompt_text model_name temperature retries delay_seconds w
               = (r, w') ∧ r ≠ MaxRetries ∧
             (∀ t, r = Generated t →
                ∃ k text, api_call E k = Responded text ∧ PyStr.strip text = t)).
  { unfold generate_result.
    destruct (provider_of model_name) as [p|]; [|by eexists _, _].
    destruct (key_missing (api_key E p)); [by eexists _, _|].
    unfold bind at 1. unfold do_client_setup.
    destruct (client_setup E (client_setups w)); [by eexists _, _|].
    destruct (Z.to_nat retries) as [|n] eqn:Hn; [lia|].
    destruct (attempts_return E p prompt_text retries delay_seconds n 0
                {| trace := trace w ++ [ClientSetup p] |}) as (r & w' & Hrun & Hne & Hgen);
      [lia|].
    exists r, w'. unfold bind. by rewrite Hrun. }
  destruct Hres as (r & w' & Hrun & Hne & Hgen).
  unfold generate_content, bind. rewrite Hrun. split; [done|].
  simpl. intros [->| ->]%render_max_retries; [done|]. by apply Hgen.
Qed.

Lemma max_retries_unreachable_witness :
  (generate_result env_always_raising (lit "prompt") gemini_model (3 # 5) 1 5 no_history).1
    ≠ MaxRetries ∧
  ((generate_content env_always_raising (lit "prompt") gemini_model (3 # 5) 1 5 no_history).1
     = lit "ERROR: Max retries." →
   ∃ k text, api_call env_always_raising k = Responded text ∧
             PyStr.strip text = lit "ERROR: Max retries.").
Proof.
  apply (max_retries_unreachable env_always_raising (lit "prompt") gemini_model (3 # 5)
           1 5 no_history). lia.
Defined.

(** Without any attempt to make, the loop body never runs and the statement
    after the loop is the one that returns. *)
Lemma max_retries_without_attempt (E : env) (prompt_text model_name : str) (temperature : Q)
    (retries : Z) (delay_seconds : N) (p : provider) (w : world) :
  provider_of model_name = Some p →
  key_missing (api_key E p) = false →
  client_setup E (client_setups w) = None →
  (retries ≤ 0)%Z →
  (generate_content E prompt_text model_name temperature retries delay_seconds w).1
    = lit "ERROR: Max retries.".
Proof.
  intros Hp Hkey Hsetup Hretries. unfold generate_content, generate_result.
  rewrite Hp, Hkey. unfold bind, do_client_setup. rewrite Hsetup.
  replace (Z.to_nat retries) with 0%nat by lia. done.
Qed.

(** ** Prompt formatting *)

Lemma replace_from_skip (old new : str) (k : nat) (s : str) :
  PyStr.replace_from old new k s = PyStr.replace_from old new 0 (drop k s).
Proof.
  revert k. induction s as [|c s IH]; intros [|k]; try done. simpl. by rewrite IH.
Qed.

Lemma replace_occurrence (old new rest : str) :
  old ≠ [] →
  PyStr.replace_from old new 0 (old ++ rest) = new ++ PyStr.replace_from old new 0 rest.
Proof.
  intros Hold. destruct old as [|a old]; [done|].
  change ((a :: old) ++ rest) with (a :: (old ++ rest)).
  cbn [PyStr.replace_from].
  assert (PyStr.startswith (a :: old) (a :: old ++ rest) = true) as ->.
  { apply startswith_prefix. by exists rest. }
  rewrite replace_from_skip.
  replace (length (a :: old) - 1)%nat with (length old) by (simpl; lia).
  by rewrite drop_app_length.
Qed.

Lemma replace_unmatched (old new : str) (c : char) (s : str) :
  PyStr.startswith old (c :: s) = false →
  PyStr.replace_from old new 0 (c :: s) = c :: PyStr.replace_from old new 0 s.
Proof. intros H. cbn [PyStr.replace_from]. by rewrite H. Qed.

Lemma startswith_token_other (name : str) (c : char) (s : str) :
  c ≠ lbracket → PyStr.startswith (token name) (c :: s) = false.
Proof.
  intros Hc. unfold token. cbn [PyStr.startswith].
  destruct (N.eqb_spec lbracket c); [by subst | done].
Qed.

(** Two bracket-free names that end at the same closing bracket are equal. *)
Lemma name_until_rbracket (a b k rest : str) :
  rbracket ∉ a → rbracket ∉ b → (a ++ [rbracket]) ++ k = b ++ rbracket :: rest → a = b.
Proof.
  revert b. induction a as [|x a IH]; intros [|y b] Ha Hb H; simpl in H.
  - done.
  - injection H as Hy _. subst y. set_solver.
  - injection H as Hx _. subst x. set_solver.
  - injection H as Hxy H. subst y. f_equal. apply IH; [set_solver | set_solver | done].
Qed.

Lemma startswith_token_token (name n rest : str) :
  rbracket ∉ name → rbracket ∉ n →
  PyStr.startswith (token name) (token n ++ rest) = bool_decide (name = n).
Proof.
  intros Hname Hn. case_bool_decide as Heq.
  - subst. apply startswith_prefix. by exists rest.
  - apply not_true_is_false. intros [k Hk]%startswith_prefix. apply Heq.
    unfold token in Hk. simpl in Hk. apply (inj (cons lbracket)) in Hk.
    apply (name_until_rbracket name n k rest); [done | done |].
    by rewrite <- Hk, <- app_assoc.
Qed.

Lemma replace_literal (name v text rest : str) :
  lbracket ∉ text →
  PyStr.replace_from (token name) v 0 (text ++ rest) =
  text ++ PyStr.replace_from (token name) v 0 rest.
Proof.
  induction text as [|c text IH]; intros Hno; [done|].
  change ((c :: text) ++ rest) with (c :: (text ++ rest)).
  rewrite replace_unmatched by (apply startswith_token_other; set_solver).
  rewrite IH by set_solver. done.
Qed.

Lemma replace_placeholder (name v n rest : str) :
  lbracket ∉ n → rbracket ∉ n → rbracket ∉ name →
  PyStr.replace_from (token name) v 0 (token n ++ rest) =
  render_segment (replace_segment name v (Placeholder n)) ++
  PyStr.replace_from (token name) v 0 rest.
Proof.
  intros Hl Hr Hname. cbn [replace_segment]. case_bool_decide as Heq.
  - subst n. by rewrite replace_occurrence.
  - cbn [render_segment]. unfold token at 2 4.
    change ((lbracket :: n ++ [rbracket]) ++ rest)
      with (lbracket :: ((n ++ [rbracket]) ++ rest)).
    rewrite replace_unmatched.
    + rewrite <- app_assoc, replace_literal by done.
      change ([rbracket] ++ rest) with (rbracket :: rest).
      rewrite replace_unmatched by (by apply startswith_token_other).
      unfold token. cbn [app]. by rewrite <- app_assoc.
    + change (lbracket :: (n ++ [rbracket]) ++ rest) with (token n ++ rest).
      rewrite startswith_token_token by done.
      apply bool_decide_eq_false. congruence.
Qed.

(** One [replace] call on a well-formed template. *)
Lemma replace_template (name v : str) (segs : list segment) :
  rbracket ∉ name →
  Forall segment_ok segs →
  PyStr.replace (token name) v (render_template segs) =
  render_template (replace_segment name v <$> segs).
Proof.
  intros Hname Hok. unfold PyStr.replace, token at 1. fold (token name).
  unfold render_template.
  induction Hok as [|s segs Hs Hok IH]; [done|].
  rewrite !fmap_cons. cbn [concat]. destruct s as [text|n]; cbn [render_segment].
  - cbn [replace_segment render_segment]. rewrite replace_literal by done. by rewrite IH.
  - destruct Hs as [Hl Hr]. rewrite replace_placeholder by done. by rewrite IH.
Qed.

Lemma replace_segment_ok (name v : str) (s : segment) :
  lbracket ∉ v → segment_ok s → segment_ok (replace_segment name v s).
Proof. destruct s; simpl; [done|]. by case_bool_decide. Qed.

Lemma resolve_replace_segment (n v : str) (ctx : list (str * str)) (s : segment) :
  resolve_segment ctx (replace_segment n v s) = resolve_segment ((n, v) :: ctx) s.
Proof.
  destruct s as [text|m]; simpl; [done|].
  destruct (decide (m = n)) as [->|Hne].
  - by rewrite !bool_decide_true.
  - rewrite !bool_decide_false by congruence. done.
Qed.

(** The successive [replace] calls on a well-formed template, with values
    free of ['[']. *)
Lemma replace_all_template (ctx : list (str * str)) (segs : list segment) :
  Forall (λ kv, (rbracket ∉ kv.1) ∧ (lbracket ∉ kv.2)) ctx →
  Forall segment_ok segs →
  foldl (λ p kv, PyStr.replace (token kv.1) kv.2 p) (render_template segs) ctx =
  render_template (resolve_segment ctx <$> segs).
Proof.
  intros Hctx. revert segs. induction Hctx as [|[n v] ctx [Hn Hv] Hctx IH]; intros segs Hok.
  - simpl. f_equal. induction segs as [|[|] segs IHs]; simpl; [done | |]; f_equal;
      apply IHs; by inversion Hok.
  - cbn [foldl fst snd]. simpl in Hn, Hv.
    rewrite replace_template by done. rewrite IH.
    + f_equal. rewrite <- list_fmap_compose. apply list_fmap_ext.
      intros i s _. apply resolve_replace_segment.
    + apply Forall_fmap. eapply Forall_impl; [exact Hok|].
      intros s Hs. by apply replace_segment_ok.
Qed.

(** Where a token occurs in a well-formed template. *)
Lemma contains_literal (name text rest : str) :
  lbracket ∉ text →
  PyStr.contains (token name) (text ++ rest) = PyStr.contains (token name) rest.
Proof.
  induction text as [|c text IH]; intros Hno; [done|].
  change ((c :: text) ++ rest) with (c :: (text ++ rest)).
  cbn [PyStr.contains].
  rewrite startswith_token_other by set_solver. rewrite IH by set_solver. done.
Qed.

Lemma contains_template (name : str) (segs : list segment) :
  rbracket ∉ name →
  Forall segment_ok segs →
  PyStr.contains (token name) (render_template segs) = true →
  Placeholder name ∈ segs.
Proof.
  intros Hname Hok. unfold render_template.
  induction Hok as [|s segs Hs Hok IH]; [done|].
  rewrite fmap_cons. cbn [concat]. destruct s as [text|n]; cbn [render_segment].
  - rewrite contains_literal by done. intros H. right. by apply IH.
  - destruct Hs as [Hl Hr]. unfold token at 2.
    change ((lbracket :: n ++ [rbracket]) ++ concat (render_segment <$> segs))
      with (lbracket :: ((n ++ [rbracket]) ++ concat (render_segment <$> segs))).
    cbn [PyStr.contains].
    change (lbracket :: (n ++ [rbracket]) ++ concat (render_segment <$> segs))
      with (token n ++ concat (render_segment <$> segs)).
    rewrite startswith_token_token by done.
    rewrite <- app_assoc, contains_literal by done.
    change ([rbracket] ++ concat (render_segment <$> segs))
      with (rbracket :: concat (render_segment <$> segs)).
    cbn [PyStr.contains]. rewrite startswith_token_other by done.
    rewrite orb_false_l. intros [Heq|H]%orb_true_iff.
    + apply bool_decide_eq_true in Heq. subst. left.
    + right. by apply IH.
Qed.

Lemma context_value_None (ctx : list (str * str)) (name : str) :
  context_value ctx name = None → name ∉ ctx.*1.
Proof.
  induction ctx as [|[n v] ctx IH]; simpl; [intros _; apply not_elem_of_nil|].
  case_bool_decide as Hn; [done|]. intros Hv. apply not_elem_of_cons.
  split; [done | by apply IH].
Qed.

(** [str(n)] writes digits and a sign. *)
Lemma string_of_uint_no_lbracket (d : Decimal.uint) :
  lbracket ∉ lit (NilEmpty.string_of_uint d).
Proof.
  induction d; unfold lit in *; simpl;
    [apply not_elem_of_nil | apply not_elem_of_cons; split; [done|done] ..].
Qed.

Lemma str_of_int_no_lbracket (n : Z) : lbracket ∉ PyStr.str_of_int n.
Proof.
  unfold PyStr.str_of_int. destruct (Z.to_int n) as [d|d]; simpl.
  - apply string_of_uint_no_lbracket.
  - unfold lit. simpl. apply not_elem_of_cons. split; [done|].
    apply string_of_uint_no_lbracket.
Qed.

Lemma fmt_prompt_foldl (st : SessionState) (prompt_template a b c : str) :
  fmt_prompt st prompt_template (Text a) (Text b) (Text c) =
  Some (foldl (λ p kv, PyStr.replace (token kv.1) kv.2 p) prompt_template (context st a b c)).
Proof. reflexivity. Qed.

(** The tokens are replaced one after the other:
    a value written by an earlier call is read by the later calls, and a
    value can bring a token into the result. *)
Lemma fmt_prompt_rescans_values :
  fmt_prompt blank_session (lit "[TOPIC_INPUT]")
    (Text (lit "[PRIMARY_KEYWORD]")) (Text (lit "hire baristas")) (Text [])
    = Some (lit "hire baristas") ∧
  ¬ (∀ (st : SessionState) (prompt_template a b c p : str),
       fmt_prompt st prompt_template (Text a) (Text b) (Text c) = Some p →
       ∀ name, name ∈ (context st a b c).*1 → PyStr.contains (token name) p = false).
Proof.
  split; [by vm_compute|]. intros H.
  specialize (H blank_session (lit "[PRIMARY_KEYWORD]") (lit "topic") (lit "[TOPIC_INPUT]") []
                (lit "[TOPIC_INPUT]") ltac:(by vm_compute) (lit "TOPIC_INPUT")
                ltac:(left)).
  vm_compute in H. discriminate.
Qed.

(** C2 (amended).  For a template in which every ['['] opens a placeholder
    and a context whose values contain no ['['], the formatted prompt is the
    template with every placeholder of the fixed set replaced by its value
    and everything else, placeholders outside the set included, kept as it
    is; no token of the fixed set occurs in it. *)
Theorem fmt_prompt_resolves (st : SessionState) (segs : list segment)
    (topic_input primary_keyword secondary_keywords : str) :
  Forall segment_ok segs →
  Forall (λ v, lbracket ∉ v)
    (context_texts st topic_input primary_keyword secondary_keywords) →
  let ctx := context st topic_input primary_keyword secondary_keywords in
  let resolved := render_template (resolve_segment ctx <$> segs) in
  fmt_prompt st (render_template segs)
    (Text topic_input) (Text primary_keyword) (Text secondary_keywords) = Some resolved ∧
  ∀ name, name ∈ ctx.*1 → PyStr.contains (token name) resolved = false.
Proof.
  intros Hok Htexts ctx resolved.
  assert (Hnames : Forall (λ name, rbracket ∉ name) ctx.*1).
  { subst ctx. unfold context. cbn [fmap list_fmap fst].
    repeat (constructor; [compute_done|]). constructor. }
  assert (Hctx : Forall (λ kv, (rbracket ∉ kv.1) ∧ (lbracket ∉ kv.2)) ctx).
  { unfold context_texts in Htexts.
    repeat match goal with
           | H : Forall _ (_ :: _) |- _ => apply Forall_cons in H as [? H]
           end.
    subst ctx. unfold context.
    repeat (constructor;
            [split; [compute_done | first [done | apply str_of_int_no_lbracket]]|]).
    constructor. }
  assert (Hfold : fmt_prompt st (render_template segs) (Text topic_input)
                    (Text primary_keyword) (Text secondary_keywords) =
                  Some (foldl (λ p kv, PyStr.replace (token kv.1) kv.2 p)
                          (render_template segs) ctx)) by apply fmt_prompt_foldl.
  subst resolved. clearbody ctx. split.
  - rewrite Hfold. f_equal. by apply replace_all_template.
  - intros name Hname.
    apply not_true_is_false. intros Hin.
    apply contains_template in Hin.
    + apply list_elem_of_fmap in Hin as (s & Hs & _).
      destruct s as [text|n]; simpl in Hs; [done|].
      destruct (context_value ctx n) as [v|] eqn:Hv; [done|].
      injection Hs as ->. by apply context_value_None in Hv.
    + rewrite Forall_forall in Hnames. by apply Hnames.
    + apply Forall_fmap. eapply Forall_impl; [exact Hok|].
      intros [text|n] Hs; simpl; [done|].
      destruct (context_value ctx n) as [v|] eqn:Hv; [|done]. simpl.
      clear -Hv Hctx. induction Hctx as [|[m u] ctx' [_ Hu] _ IH]; [done|].
      simpl in Hv. case_bool_decide; [by injection Hv as <- | by apply IH].
Qed.

Lemma fmt_prompt_resolves_witness :
  fmt_prompt blank_session (lit "Hello [TOPIC_INPUT] and [UNKNOWN]")
    (Text (lit "baristas")) (Text []) (Text []) = Some (lit "Hello baristas and [UNKNOWN]") ∧
  ∀ name, name ∈ (context blank_session (lit "baristas") [] []).*1 →
          PyStr.contains (token name) (lit "Hello baristas and [UNKNOWN]") = false.
Proof.
  exact (fmt_prompt_resolves blank_session
           [Literal (lit "Hello "); Placeholder (lit "TOPIC_INPUT"); Literal (lit " and ");
            Placeholder (lit "UNKNOWN")]
           (lit "baristas") [] []
           ltac:(repeat constructor; compute_done)
           ltac:(repeat constructor; compute_done)).
Defined.

(** ** The batch *)

Lemma setitem_values {V} (P : V → Prop) (k : string) (v : V) (d : PyDict.dict V) :
  P v → Forall (λ kv, P kv.2) d → Forall (λ kv, P kv.2) (PyDict.setitem k v d).
Proof.
  intros Hv Hd. induction Hd as [|[k' v'] d Hkv Hd IH]; simpl.
  - by repeat constructor.
  - case_bool_decide; constructor; done.
Qed.

Lemma of_items_values {V} (P : V → Prop) (items : list (string * V)) :
  Forall (λ kv, P kv.2) items → Forall (λ kv, P kv.2) (PyDict.of_items items).
Proof.
  unfold PyDict.of_items. generalize (@nil (string * V)) (Forall_nil_2 (λ kv : string * V, P kv.2)).
  intros acc Hacc Hitems. revert acc Hacc.
  induction Hitems as [|[k v] items Hkv Hitems IH]; intros acc Hacc; [done|].
  simpl. apply IH. by apply setitem_values.
Qed.

Lemma get_values {V} (P : V → Prop) (k : string) (d : PyDict.dict V) (v : V) :
  Forall (λ kv, P kv.2) d → PyDict.get k d = Some v → P v.
Proof.
  intros Hd. induction Hd as [|[k' v'] d Hkv Hd IH]; simpl; [done|].
  case_bool_decide; [|done]. by intros [= <-].
Qed.

Lemma to_dict_records_text (df : DataFrame) :
  text_cells df →
  Forall (λ topic_row, Forall (λ kv, is_text kv.2) topic_row) (to_dict_records df).
Proof.
  unfold text_cells, to_dict_records. intros H. apply Forall_fmap.
  eapply Forall_impl; [exact H|]. intros row Hrow. simpl.
  apply of_items_values. generalize (df_columns df). clear -Hrow.
  induction Hrow as [|c row Hc Hrow IH]; intros [|col cols]; simpl; try constructor; auto.
Qed.

Lemma get_default_text (k : string) (topic_row : PyDict.dict cell) (d : str) :
  Forall (λ kv, is_text kv.2) topic_row →
  is_text (default (Text d) (PyDict.get k topic_row)).
Proof.
  intros H. destruct (PyDict.get k topic_row) as [c|] eqn:Hget; simpl.
  - by apply (get_values is_text k topic_row c).
  - by exists d.
Qed.

Section BatchFacts.

Variable E : env.
Variable st : SessionState.

(** A field with text cells always yields a row, with text in the field. *)
Lemma generate_field_text (a b c : str) (output_row : gmap string cell)
    (field_to_gen : string) (w : world) :
  ∃ output_row' w',
    generate_field E st (Text a) (Text b) (Text c) output_row field_to_gen w
      = (Some output_row', w') ∧
    text_at output_row' field_to_gen ∧
    (∀ k, text_at output_row k → text_at output_row' k).
Proof.
  unfold generate_field, text_at.
  assert (Hins : ∀ (row : gmap string cell) (f : string) (s : str),
             (∃ s', <[f := Text s]> row !! f = Some (Text s')) ∧
             (∀ k, (∃ s', row !! k = Some (Text s')) →
                   ∃ s', <[f := Text s]> row !! k = Some (Text s'))).
  { intros row f s. split.
    - exists s. apply lookup_insert_eq.
    - intros k [s' Hk]. destruct (decide (f = k)) as [->|Hne].
      + exists s. apply lookup_insert_eq.
      + exists s'. by rewrite lookup_insert_ne. }
  destruct (editable_prompts st !! field_to_gen) as [[|ch prompt_template]|];
    [eexists _, _; split; [reflexivity | apply Hins] | |
     eexists _, _; split; [reflexivity | apply Hins]].
  rewrite fmt_prompt_foldl. unfold bind at 1.
  destruct (generate_content E _ _ _ _ _ w) as [generated_val w1].
  unfold bind, emit, ret. eexists _, _. split; [reflexivity|].
  case_bool_decide as Hmain.
  - split.
    + destruct (Hins output_row field_to_gen generated_val) as [Hf _].
      by do 2 apply Hins.
    + intros k Hk. by do 3 apply Hins.
  - apply Hins.
Qed.

Lemma generate_fields_text (a b c : str) (fields : list string) :
  ∀ (output_row : gmap string cell) (w : world),
  ∃ output_row' w',
    generate_fields E st (Text a) (Text b) (Text c) output_row fields w
      = (Some output_row', w') ∧
    (∀ f, f ∈ fields → text_at output_row' f) ∧
    (∀ k, text_at output_row k → text_at output_row' k).
Proof.
  induction fields as [|f fields IH]; intros output_row w.
  - exists output_row, w. split; [done|]. split; [|done].
    intros f Hf. by apply elem_of_nil in Hf.
  - cbn [generate_fields]. unfold bind at 1.
    destruct (generate_field_text a b c output_row f w) as (row1 & w1 & -> & Hf & Hkeep).
    destruct (IH row1 w1) as (row2 & w2 & -> & Hfields & Hkeep2).
    exists row2, w2. split; [done|]. split.
    + intros f' [->|Hin]%elem_of_cons; [by apply Hkeep2 | by apply Hfields].
    + intros k Hk. by apply Hkeep2, Hkeep.
Qed.

Lemma generate_row_text (topic_row : PyDict.dict cell) (w : world) :
  Forall (λ kv, is_text kv.2) topic_row →
  ∃ output_row w',
    generate_row E st topic_row w = (Some output_row, w') ∧
    (∀ f, f ∈ FIELDS → text_at output_row f).
Proof.
  intros Hrow. unfold generate_row.
  destruct (get_default_text "topic_input" topic_row (lit "N/A") Hrow) as [a ->].
  destruct (get_default_text "primary_keyword" topic_row [] Hrow) as [b ->].
  destruct (get_default_text "secondary_keywords" topic_row [] Hrow) as [c ->].
  destruct (generate_fields_text a b c FIELDS
              (<["secondary_keywords"%string := Text c]>
                 (<["primary_keyword"%string := Text b]>
                    (<["topic_input"%string := Text a]> ∅))) w)
    as (row' & w' & Hrun & Hfields & _).
  by exists row', w'.
Qed.

Lemma generate_rows_text (records : list (PyDict.dict cell)) :
  Forall (λ topic_row, Forall (λ kv, is_text kv.2) topic_row) records →
  ∀ (acc : list (gmap string cell)) (w : world),
    Forall (λ r, ∀ f, f ∈ FIELDS → text_at r f) acc →
    ∃ all_generated_data_list w',
      generate_rows E st acc records w = (Completed all_generated_data_list, w') ∧
      length all_generated_data_list = (length acc + length records)%nat ∧
      Forall (λ r, ∀ f, f ∈ FIELDS → text_at r f) all_generated_data_list.
Proof.
  induction 1 as [|topic_row records Hrow Hrecords IH]; intros acc w Hacc.
  - exists acc, w. simpl. split; [done|]. split; [lia | done].
  - cbn [generate_rows]. unfold bind at 1.
    destruct (generate_row_text topic_row w Hrow) as (row & w1 & -> & Hfields).
    destruct (IH (acc ++ [row]) w1) as (l & w2 & -> & Hlen & Hall).
    { apply Forall_app. split; [done|]. by constructor. }
    exists l, w2. split; [done|]. split; [|done].
    rewrite Hlen, length_app. simpl. lia.
Qed.

End BatchFacts.

(** In the mode "all", for a non-empty topic table whose cells are all text,
    the batch ends with one output row per topic row, and every output row
    holds text under each of the six generated fields: no outcome of the
    API calls ends the batch early. *)
Lemma run_generation_complete (E : env) (st : SessionState) (w : world) :
  df_empty (topics_df st) = false →
  first_only st = false →
  text_cells (topics_df st) →
  ∃ all_generated_data_list w',
    run_generation E st w = (Completed all_generated_data_list, w') ∧
    length all_generated_data_list = length (df_rows (topics_df st)) ∧
    Forall (λ output_row, ∀ f, f ∈ FIELDS → ∃ s, output_row !! f = Some (Text s))
      all_generated_data_list.
Proof.
  intros Hempty Hmode Htext. unfold run_generation. rewrite Hempty, Hmode. simpl.
  destruct (generate_rows_text E st (to_dict_records (topics_df st))
              (to_dict_records_text _ Htext) [] w) as (l & w' & Hrun & Hlen & Hall);
    [constructor|].
  exists l, w'. split; [done|]. split; [|done].
  rewrite Hlen. unfold to_dict_records. by rewrite length_fmap.
Qed.

Lemma run_generation_complete_witness :
  ∃ all_generated_data_list w',
    run_generation env_answering demo_session no_history
      = (Completed all_generated_data_list, w') ∧
    length all_generated_data_list = 2%nat ∧
    Forall (λ output_row, ∀ f, f ∈ FIELDS → ∃ s, output_row !! f = Some (Text s))
      all_generated_data_list.
Proof.
  exact (run_generation_complete env_answering demo_session no_history eq_refl eq_refl
           ltac:(repeat constructor; by eexists)).
Defined.

(** C5 (the code at a table with an empty cell).  A topic row whose
    secondary keywords are missing makes [str.replace] raise a [TypeError]
    in the first field that has a template; nothing catches it, so the run
    ends without any output row and before any API call. *)
Theorem run_generation_missing_cell :
  df_empty (topics_df session_with_missing_cell) = false ∧
  length (df_rows (topics_df session_with_missing_cell)) = 1%nat ∧
  run_generation env_answering session_with_missing_cell no_history
    = (UncaughtTypeError, no_history).
Proof. by vm_compute. Qed.

(** C7.  With a topic table of no rows the run stops with a warning before
    anything is generated: no output row, and the history is untouched. *)
Theorem run_generation_no_topics (E : env) (st : SessionState) (w : world) :
  df_rows (topics_df st) = [] →
  run_generation E st w =
    (Stopped (lit "No topics to process. Please upload a CSV or add topics in the editor."), w).
Proof.
  intros Hrows. unfold run_generation, df_empty. rewrite Hrows.
  by destruct (df_columns (topics_df st)).
Qed.

Lemma run_generation_no_topics_witness :
  run_generation env_answering blank_session no_history =
    (Stopped (lit "No topics to process. Please upload a CSV or add topics in the editor."),
     no_history).
Proof. exact (run_generation_no_topics env_answering blank_session no_history eq_refl). Defined.

(** C9.  Among the six fields only [main_text_html] touches the two derived
    fields; for [main_text_html] with a template they are computed from the
    string that [generate_content] returned, whatever it is. *)
Theorem audit_only_for_main_text (E : env) (st : SessionState) (a b c : cell)
    (output_row : gmap string cell) (w : world) :
  (∀ field_to_gen output_row' w',
     field_to_gen ∈ FIELDS →
     field_to_gen ≠ "main_text_html"%string →
     generate_field E st a b c output_row field_to_gen w = (Some output_row', w') →
     output_row' !! "found_internal_links_in_html"%string
       = output_row !! "found_internal_links_in_html"%string ∧
     output_row' !! "found_external_links_in_html"%string
       = output_row !! "found_external_links_in_html"%string) ∧
  (∀ prompt_template p,
     editable_prompts st !! "main_text_html"%string = Some prompt_template →
     prompt_template ≠ [] →
     fmt_prompt st prompt_template a b c = Some p →
     let r := generate_content E p (model_name st) (llm_temperature st) 3 5 w in
     let found := audit_links (approved_internal_links st) (approved_external_links st) r.1 in
     generate_field E st a b c output_row "main_text_html" w =
       (Some (<["found_external_links_in_html"%string := Text found.2]>
                (<["found_internal_links_in_html"%string := Text found.1]>
                   (<["main_text_html"%string := Text r.1]> output_row))),
        {| trace := trace r.2 ++ [Pause] |})).
Proof.
  split.
  - intros field_to_gen output_row' w' Hin Hne Hrun.
    assert (Hkeys : field_to_gen ≠ "found_internal_links_in_html"%string ∧
                    field_to_gen ≠ "found_external_links_in_html"%string).
    { unfold FIELDS in Hin. repeat (apply elem_of_cons in Hin as [->|Hin]; [done|]).
      by apply elem_of_nil in Hin. }
    destruct Hkeys as [Hi He]. unfold generate_field in Hrun.
    destruct (editable_prompts st !! field_to_gen) as [[|ch prompt_template]|];
      [injection Hrun as <- _; by rewrite !lookup_insert_ne | |
       injection Hrun as <- _; by rewrite !lookup_insert_ne].
    destruct (fmt_prompt st (ch :: prompt_template) a b c) as [p|]; [|discriminate].
    unfold bind at 1 in Hrun.
    destruct (generate_content E p (model_name st) (llm_temperature st) 3 5 w)
      as [generated_val w1].
    rewrite bool_decide_false in Hrun by done.
    injection Hrun as <- _. by rewrite !lookup_insert_ne.
  - intros prompt_template p Hprompt Hne Hfmt r found. subst found r.
    unfold generate_field. rewrite Hprompt.
    destruct prompt_template as [|ch prompt_template]; [done|].
    rewrite Hfmt. unfold bind at 1.
    by destruct (generate_content E p (model_name st) (llm_temperature st) 3 5 w).
Qed.

Lemma audit_only_for_main_text_witness :
  generate_field env_always_raising demo_session (Text (lit "cooks")) (Text []) (Text [])
    ∅ "main_text_html" no_history =
  (Some (<["found_external_links_in_html"%string := Text (lit "ERROR")]>
           (<["found_internal_links_in_html"%string := Text []]>
              (<["main_text_html"%string := Text (lit "ERROR: API call failed - timeout")]>
                 ∅))),
   {| trace := [ClientSetup Gemini; ApiCall Gemini (lit "Body about cooks"); Sleep 5;
                ApiCall Gemini (lit "Body about cooks"); Sleep 10;
                ApiCall Gemini (lit "Body about cooks"); Pause] |}).
Proof.
  exact (proj2 (audit_only_for_main_text env_always_raising demo_session
                  (Text (lit "cooks")) (Text []) (Text []) ∅ no_history)
           (lit "Body about [TOPIC_INPUT]") (lit "Body about cooks")
           eq_refl ltac:(discriminate) eq_refl).
Defined.

(** ** Saving and loading a configuration *)

Lemma setitem_fresh {V} (k : string) (v : V) (d : PyDict.dict V) :
  k ∉ d.*1 → PyDict.setitem k v d = d ++ [(k, v)].
Proof.
  induction d as [|[k' v'] d IH]; simpl; [done|].
  intros [Hne Hd]%not_elem_of_cons. rewrite bool_decide_false by done. by rewrite IH.
Qed.

Lemma of_items_NoDup_from {V} (acc items : PyDict.dict V) :
  NoDup (acc.*1 ++ items.*1) →
  foldl (λ d kv, PyDict.setitem kv.1 kv.2 d) acc items = acc ++ items.
Proof.
  revert acc. induction items as [|[k v] items IH]; intros acc Hnd; simpl.
  - by rewrite app_nil_r.
  - rewrite setitem_fresh.
    + rewrite IH; [by rewrite <- app_assoc|].
      rewrite fmap_app. simpl in *. by rewrite <- app_assoc.
    + simpl in Hnd. apply NoDup_app in Hnd as (_ & Hdisj & _).
      intros Hin. apply (Hdisj k Hin). left.
Qed.

Lemma of_items_NoDup {V} (items : PyDict.dict V) :
  NoDup items.*1 → PyDict.of_items items = items.
Proof. intros H. unfold PyDict.of_items. by rewrite of_items_NoDup_from. Qed.

Lemma add_columns_known (cols ks : list string) :
  ks ⊆ cols → foldl add_column cols ks = cols.
Proof.
  induction ks as [|k ks IH]; intros Hsub; simpl; [done|].
  unfold add_column at 2. rewrite bool_decide_true by set_solver. apply IH. set_solver.
Qed.

Lemma add_columns_fresh (cols ks : list string) :
  NoDup (cols ++ ks) → foldl add_column cols ks = cols ++ ks.
Proof.
  revert cols. induction ks as [|k ks IH]; intros cols Hnd; simpl.
  - by rewrite app_nil_r.
  - unfold add_column at 2. rewrite bool_decide_false.
    + rewrite IH; rewrite <- app_assoc; done.
    + apply NoDup_app in Hnd as (_ & Hdisj & _). intros Hin. apply (Hdisj k Hin). left.
Qed.

Lemma columns_of_records_same (cols : list string) (records : list (PyDict.dict cell)) :
  NoDup cols →
  records ≠ [] →
  Forall (λ d, PyDict.keys d = cols) records →
  columns_of_records records = cols.
Proof.
  intros Hnd Hne Hkeys. unfold columns_of_records.
  destruct Hkeys as [|d records Hd Hkeys]; [done|]. simpl. rewrite Hd.
  rewrite add_columns_fresh by done. simpl.
  clear Hne Hd. induction Hkeys as [|d' records Hd' Hkeys IH]; [done|].
  simpl. rewrite Hd'. by rewrite add_columns_known.
Qed.

Lemma get_zip_columns (cols : list string) (row : list cell) :
  NoDup cols → length row = length cols →
  (λ c, default NaN (PyDict.get c (zip cols row))) <$> cols = row.
Proof.
  intros Hnd. revert row. induction Hnd as [|col cols Hnotin Hnd IH]; intros [|x row] Hlen;
    try done.
  simpl in *. rewrite bool_decide_true by done. simpl. f_equal.
  etrans; [|apply (IH row); lia]. apply list_fmap_ext.
  intros i c Hc. rewrite bool_decide_false; [done|].
  intros ->. apply Hnotin. by eapply list_elem_of_lookup_2.
Qed.

Lemma to_dict_records_zip (df : DataFrame) :
  df_wf df → to_dict_records df = (λ row, zip (df_columns df) row) <$> df_rows df.
Proof.
  intros [Hnd Hrect]. unfold to_dict_records. apply Forall_fmap_ext.
  eapply Forall_impl; [exact Hrect|]. intros row Hlen. simpl in *.
  apply of_items_NoDup. rewrite fst_zip by lia. done.
Qed.

(** A table with at least one row comes back as it was. *)
Lemma DataFrame_of_to_dict_records (df : DataFrame) :
  df_wf df → df_rows df ≠ [] → DataFrame_of_records (to_dict_records df) = df.
Proof.
  intros Hwf Hrows. rewrite to_dict_records_zip by done. destruct Hwf as [Hnd Hrect].
  destruct df as [cols rows]. simpl in *. unfold DataFrame_of_records.
  assert (Hcols : columns_of_records ((λ row, zip cols row) <$> rows) = cols).
  { apply columns_of_records_same; [done | by destruct rows |].
    apply Forall_fmap. eapply Forall_impl; [exact Hrect|].
    intros row Hlen. simpl in *. unfold PyDict.keys. rewrite fst_zip by lia. done. }
  rewrite Hcols. f_equal.
  rewrite <- list_fmap_compose. rewrite <- (list_fmap_id rows) at 2.
  apply Forall_fmap_ext. eapply Forall_impl; [exact Hrect|].
  intros row Hlen. simpl in *. by apply get_zip_columns.
Qed.

(** The records of a table are the records of the table built from them. *)
Lemma to_dict_records_round_trip (df : DataFrame) :
  df_wf df →
  to_dict_records (DataFrame_of_records (to_dict_records df)) = to_dict_records df.
Proof.
  intros Hwf. destruct (decide (df_rows df = [])) as [Hrows|Hrows].
  - unfold to_dict_records at 2 3. rewrite Hrows. done.
  - by rewrite DataFrame_of_to_dict_records.
Qed.





(** The labels of a table without rows are not part of what is saved: such
    a table comes back without rows and without columns. *)
Lemma empty_table_loses_columns (cols : list string) :
  DataFrame_of_records (to_dict_records {| df_columns := cols; df_rows := [] |}) =
  {| df_columns := []; df_rows := [] |}.
Proof. reflexivity. Qed.

(** ** More on [generate_content]: every path through the function *)

Section RetryLoopFacts.

Variable E : env.

(** What the loop does for any outcomes: it stops at some attempt [j],
    either with the text of that attempt or, at the last attempt, with its
    failure; every earlier attempt failed, and the history grows by a call
    per attempt with a wait between two calls. *)
Lemma attempts_shape p prompt_text retries delay_seconds :
  ∀ n attempt w,
    Z.of_nat (attempt + S n) = retries →
    ∃ j r,
      (j ≤ n)%nat ∧
      attempts E p prompt_text retries delay_seconds (seq attempt (S n)) w =
        (Some r, {| trace := trace w ++
                             failing_trace p prompt_text delay_seconds attempt (S j) |}) ∧
      (classify p (api_call E (api_calls w + j)) = inr r ∧ j = n ∨
       ∃ t, classify p (api_call E (api_calls w + j)) = inl t ∧ r = Generated t) ∧
      (∀ i, (i < j)%nat → ∃ f, classify p (api_call E (api_calls w + i)) = inr f).
Proof.
  induction n as [|n IH]; intros attempt w Hretries;
    rewrite <- cons_seq, attempts_cons; cbn zeta.
  - replace (Z.of_nat attempt <? retries - 1)%Z with false by (symmetry; apply Z.ltb_ge; lia).
    exists 0%nat. rewrite Nat.add_0_r.
    destruct (classify p (api_call E (api_calls w))) as [t|f] eqn:Hc.
    + exists (Generated t). split_and!; [lia | done | right; by exists t | lia].
    + exists f. split_and!; [lia | done | by left | lia].
  - replace (Z.of_nat attempt <? retries - 1)%Z with true by (symmetry; apply Z.ltb_lt; lia).
    destruct (classify p (api_call E (api_calls w))) as [t|f] eqn:Hc.
    + exists 0%nat, (Generated t). rewrite Nat.add_0_r.
      split_and!; [lia | done | right; by exists t | lia].
    + set (w2 := {| trace := trace {| trace := trace w ++ [ApiCall p prompt_text] |} ++
                             [Sleep (delay_seconds * N.of_nat (attempt + 1))] |}).
      assert (Hcalls : api_calls w2 = S (api_calls w)).
      { unfold api_calls, w2. cbn [trace].
        rewrite !List.filter_app, !length_app. simpl. lia. }
      destruct (IH (S attempt) w2) as (j & r & Hj & Hrun & Hlast & Hbefore); [lia|].
      exists (S j), r. split_and!.
      * lia.
      * rewrite Hrun. do 2 f_equal. unfold w2. cbn [trace].
        rewrite <- !app_assoc. done.
      * rewrite Hcalls in Hlast.
        replace (api_calls w + S j)%nat with (S (api_calls w) + j)%nat by lia.
        destruct Hlast as [[Hl ->]|Hl]; [by left | by right].
      * intros [|i] Hi.
        -- rewrite Nat.add_0_r. by exists f.
        -- destruct (Hbefore i) as [f' Hf']; [lia|]. exists f'.
           rewrite Hcalls in Hf'.
           by replace (api_calls w + S i)%nat with (S (api_calls w) + i)%nat by lia.
Qed.

End RetryLoopFacts.

Lemma api_calls_after_attempts (w : world) p prompt_text delay_seconds attempt j :
  api_calls {| trace := trace w ++ ClientSetup p ::
                        failing_trace p prompt_text delay_seconds attempt j |}
  = (api_calls w + j)%nat.
Proof.
  unfold api_calls. cbn [trace]. rewrite List.filter_app, length_app.
  cbn [List.filter is_api_call]. by rewrite failing_trace_api_calls.
Qed.

Lemma sleeps_after_attempts (w : world) p prompt_text delay_seconds j :
  sleeps (trace w ++ ClientSetup p :: failing_trace p prompt_text delay_seconds 0 j)
  = sleeps (trace w) ++ ((λ i, delay_seconds * N.of_nat i) <$> seq 1 (j - 1)).
Proof.
  unfold sleeps. rewrite omap_app. cbn [omap list_omap].
  fold (sleeps (failing_trace p prompt_text delay_seconds 0 j)).
  by rewrite failing_trace_sleeps.
Qed.

(** The run of [generate_content] past the key check and the client
    set-up, for any outcomes of the calls. *)
Lemma generate_result_shape (E : env) (prompt_text model_name : str) (temperature : Q)
    (retries : Z) (delay_seconds : N) (p : provider) (w : world) :
  provider_of model_name = Some p →
  key_missing (api_key E p) = false →
  client_setup E (client_setups w) = None →
  (1 ≤ retries)%Z →
  let calls := api_calls w in
  ∃ j r,
    (j < Z.to_nat retries)%nat ∧
    generate_result E prompt_text model_name temperature retries delay_seconds w =
      (r, {| trace := trace w ++ ClientSetup p ::
                      failing_trace p prompt_text delay_seconds 0 (S j) |}) ∧
    (classify p (api_call E (calls + j)) = inr r ∧ S j = Z.to_nat retries ∨
     ∃ t, classify p (api_call E (calls + j)) = inl t ∧ r = Generated t) ∧
    (∀ i, (i < j)%nat → ∃ f, classify p (api_call E (calls + i)) = inr f).
Proof.
  intros Hp Hkey Hsetup Hretries calls. subst calls.
  destruct (Z.to_nat retries) as [|n] eqn:Hn; [lia|].
  set (w1 := {| trace := trace w ++ [ClientSetup p] |}).
  assert (Hcalls : api_calls w1 = api_calls w).
  { unfold api_calls, w1. cbn [trace]. rewrite List.filter_app, length_app. simpl. lia. }
  destruct (attempts_shape E p prompt_text retries delay_seconds n 0 w1)
    as (j & r & Hj & Hrun & Hlast & Hbefore); [lia|].
  rewrite Hcalls in Hlast. exists j, r. split_and!.
  - lia.
  - unfold generate_result. rewrite Hp, Hkey. unfold bind at 1. unfold do_client_setup.
    rewrite Hsetup. unfold bind. fold w1. rewrite Hn, Hrun. unfold ret.
    cbn [default from_option id]. do 2 f_equal. unfold w1. cbn [trace].
    by rewrite <- app_assoc.
  - destruct Hlast as [[Hl ->]|Hl]; [by left | by right].
  - intros i Hi. destruct (Hbefore i Hi) as [f Hf]. exists f. by rewrite Hcalls in Hf.
Qed.

(** X1.  When the first [k] attempts fail (an exception, or a response without
    content) and attempt [k + 1] carries text, with [k < retries], the
    function returns that text stripped, after [k + 1] calls and waits of
    [delay_seconds * 1], ..., [delay_seconds * k]. *)
Theorem generate_content_succeeds_after_failures (E : env) (prompt_text model_name : str)
    (temperature : Q) (retries : Z) (delay_seconds : N) (p : provider) (w : world)
    (k : nat) (generated_text : str) :
  provider_of model_name = Some p →
  key_missing (api_key E p) = false →
  client_setup E (client_setups w) = None →
  (Z.of_nat k < retries)%Z →
  (∀ i, (i < k)%nat → ∃ f, classify p (api_call E (api_calls w + i)) = inr f) →
  classify p (api_call E (api_calls w + k)) = inl generated_text →
  let r := generate_content E prompt_text model_name temperature retries delay_seconds w in
  r.1 = generated_text ∧
  trace r.2 = trace w ++ ClientSetup p :: failing_trace p prompt_text delay_seconds 0 (S k) ∧
  api_calls r.2 = (api_calls w + S k)%nat ∧
  sleeps (trace r.2) = sleeps (trace w) ++ ((λ i, delay_seconds * N.of_nat i) <$> seq 1 k).
Proof.
  intros Hp Hkey Hsetup Hk Hfail Hok r.
  destruct (generate_result_shape E prompt_text model_name temperature retries delay_seconds
              p w Hp Hkey Hsetup ltac:(lia)) as (j & res & Hj & Hrun & Hlast & Hbefore).
  assert (j = k) as ->.
  { destruct (Nat.lt_trichotomy j k) as [Hlt|[->|Hgt]]; [|done|].
    - destruct (Hfail j Hlt) as [f Hf]. rewrite Hf in Hlast.
      destruct Hlast as [[_ Hn]|(t & Ht & _)]; [lia | discriminate].
    - destruct (Hbefore k Hgt) as [f Hf]. rewrite Hf in Hok. discriminate. }
  assert (res = Generated generated_text) as ->.
  { rewrite Hok in Hlast. destruct Hlast as [[Hl _]|(t & Ht & ->)]; [discriminate|].
    by injection Ht as ->. }
  subst r. unfold generate_content, bind. rewrite Hrun. cbn [fst snd trace ret render].
  split_and!; [done | done | apply api_calls_after_attempts |].
  rewrite sleeps_after_attempts. by replace (S k - 1)%nat with k by lia.
Qed.

Lemma generate_content_succeeds_after_failures_witness :
  let r := generate_content env_flaky (lit "prompt") gemini_model (3 # 5) 3 5 no_history in
  r.1 = lit "<p>ok</p>" ∧
  trace r.2 =
    [ClientSetup Gemini; ApiCall Gemini (lit "prompt"); Sleep 5;
     ApiCall Gemini (lit "prompt"); Sleep 10; ApiCall Gemini (lit "prompt")] ∧
  api_calls r.2 = 3%nat ∧
  sleeps (trace r.2) = [5; 10].
Proof.
  apply (generate_content_succeeds_after_failures env_flaky (lit "prompt") gemini_model
           (3 # 5) 3 5 Gemini no_history 2 (lit "<p>ok</p>"));
    [reflexivity | reflexivity | reflexivity | lia | | reflexivity].
  intros [|[|i]] Hi; [by eexists | by eexists | lia].
Defined.

(** X2.  When every one of the [retries] attempts fails, in any mix of
    exceptions and responses without content, the function returns the
    marker of the last failure (["ERROR: Blocked - <reason>"],
    ["ERROR: OpenAI response empty after retries."],
    ["ERROR: Anthropic response empty/invalid after retries."] or
    ["ERROR: API call failed - <detail>"]) after exactly [retries] calls. *)
Theorem generate_content_all_attempts_fail (E : env) (prompt_text model_name : str)
    (temperature : Q) (retries : Z) (delay_seconds : N) (p : provider) (w : world)
    (failures : nat → gen_result) :
  provider_of model_name = Some p →
  key_missing (api_key E p) = false →
  client_setup E (client_setups w) = None →
  (1 ≤ retries)%Z →
  (∀ i, (i < Z.to_nat retries)%nat →
        classify p (api_call E (api_calls w + i)) = inr (failures i)) →
  let n := Z.to_nat retries in
  let r := generate_content E prompt_text model_name temperature retries delay_seconds w in
  r.1 = render (failures (n - 1)%nat) ∧
  api_calls r.2 = (api_calls w + n)%nat ∧
  sleeps (trace r.2) =
    sleeps (trace w) ++ ((λ i, delay_seconds * N.of_nat i) <$> seq 1 (n - 1)).
Proof.
  intros Hp Hkey Hsetup Hretries Hfail n r.
  destruct (generate_result_shape E prompt_text model_name temperature retries delay_seconds
              p w Hp Hkey Hsetup Hretries) as (j & res & Hj & Hrun & Hlast & _).
  rewrite (Hfail j Hj) in Hlast.
  destruct Hlast as [[Hl Hn]|(t & Ht & _)]; [|discriminate].
  injection Hl as <-. subst r n. rewrite <- Hn.
  unfold generate_content, bind. rewrite Hrun. cbn [fst snd trace ret].
  split_and!.
  - by replace (S j - 1)%nat with j by lia.
  - apply api_calls_after_attempts.
  - apply sleeps_after_attempts.
Qed.

Lemma generate_content_all_attempts_fail_witness :
  let r := generate_content env_blocking (lit "prompt") gpt_model (3 # 5) 3 5 no_history in
  r.1 = lit "ERROR: OpenAI response empty after retries." ∧
  api_calls r.2 = 3%nat ∧
  sleeps (trace r.2) = [5; 10].
Proof.
  apply (generate_content_all_attempts_fail env_blocking (lit "prompt") gpt_model (3 # 5)
           3 5 OpenAI no_history (λ _, OpenAIEmpty));
    [reflexivity | reflexivity | reflexivity | lia | intros i _; reflexivity].
Defined.

Lemma generate_content_result (E : env) (prompt_text model_name : str) (temperature : Q)
    (retries : Z) (delay_seconds : N) (w : world) :
  generate_content E prompt_text model_name temperature retries delay_seconds w =
  (render (generate_result E prompt_text model_name temperature retries delay_seconds w).1,
   (generate_result E prompt_text model_name temperature retries delay_seconds w).2).
Proof.
  unfold generate_content, bind.
  by destruct (generate_result E prompt_text model_name temperature retries delay_seconds w).
Qed.

Lemma failing_trace_no_setup p prompt_text delay_seconds attempt n :
  List.filter is_client_setup (failing_trace p prompt_text delay_seconds attempt n) = [].
Proof.
  revert attempt. induction n as [|n IH]; intros attempt; [done|].
  cbn [failing_trace]. destruct n as [|n]; [done|].
  cbn [List.filter is_client_setup]. apply IH.
Qed.

Lemma generate_content_effects (E : env) (prompt_text model_name : str) (temperature : Q)
    (retries : Z) (delay_seconds : N) (w : world) :
  let r := generate_content E prompt_text model_name temperature retries delay_seconds w in
  ∃ j,
    (j ≤ Z.to_nat retries)%nat ∧
    api_calls r.2 = (api_calls w + j)%nat ∧
    (client_setups r.2 ≤ client_setups w + 1)%nat ∧
    sleeps (trace r.2) =
      sleeps (trace w) ++ ((λ i, delay_seconds * N.of_nat i) <$> seq 1 (j - 1)).
Proof.
  intros r. subst r. rewrite generate_content_result. cbn [snd].
  assert (Hsame : ∃ j, (j ≤ Z.to_nat retries)%nat ∧
                       api_calls w = (api_calls w + j)%nat ∧
                       (client_setups w ≤ client_setups w + 1)%nat ∧
                       sleeps (trace w) =
                         sleeps (trace w) ++
                         ((λ i, delay_seconds * N.of_nat i) <$> seq 1 (j - 1))).
  { exists 0%nat. split_and!; [lia | lia | lia |]. simpl. by rewrite app_nil_r. }
  assert (Hsetup_only : ∀ p,
             ∃ j, (j ≤ Z.to_nat retries)%nat ∧
                  api_calls {| trace := trace w ++ [ClientSetup p] |}
                    = (api_calls w + j)%nat ∧
                  (client_setups {| trace := trace w ++ [ClientSetup p] |}
                     ≤ client_setups w + 1)%nat ∧
                  sleeps (trace {| trace := trace w ++ [ClientSetup p] |}) =
                    sleeps (trace w) ++
                    ((λ i, delay_seconds * N.of_nat i) <$> seq 1 (j - 1))).
  { intros p. exists 0%nat. cbn [trace]. split_and!.
    - lia.
    - unfold api_calls. cbn [trace]. rewrite List.filter_app, length_app. simpl. lia.
    - unfold client_setups. cbn [trace]. rewrite List.filter_app, length_app. simpl. lia.
    - unfold sleeps. rewrite omap_app. simpl. done. }
  destruct (provider_of model_name) as [p|] eqn:Hp.
  2: { unfold generate_result. rewrite Hp. exact Hsame. }
  destruct (key_missing (api_key E p)) eqn:Hkey.
  { unfold generate_result. rewrite Hp, Hkey. exact Hsame. }
  destruct (client_setup E (client_setups w)) as [detail|] eqn:Hsetup.
  { assert (generate_result E prompt_text model_name temperature retries delay_seconds w
            = (SetupError detail, {| trace := trace w ++ [ClientSetup p] |})) as ->.
    { unfold generate_result. rewrite Hp, Hkey. unfold bind, do_client_setup.
      by rewrite Hsetup. }
    exact (Hsetup_only p). }
  destruct (decide (1 ≤ retries)%Z) as [Hretries|Hretries].
  - destruct (generate_result_shape E prompt_text model_name temperature retries
                delay_seconds p w Hp Hkey Hsetup Hretries)
      as (j & res & Hj & Hrun & _ & _).
    rewrite Hrun. exists (S j). cbn [snd trace]. split_and!.
    + lia.
    + apply api_calls_after_attempts.
    + unfold client_setups. cbn [trace]. rewrite List.filter_app, length_app.
      cbn [List.filter is_client_setup length].
      rewrite failing_trace_no_setup. simpl. lia.
    + apply sleeps_after_attempts.
  - assert (generate_result E prompt_text model_name temperature retries delay_seconds w
            = (MaxRetries, {| trace := trace w ++ [ClientSetup p] |})) as ->.
    { unfold generate_result. rewrite Hp, Hkey. unfold bind, do_client_setup.
      rewrite Hsetup. by replace (Z.to_nat retries) with 0%nat by lia. }
    exact (Hsetup_only p).
Qed.


(** X4.  What comes back is either the stripped text of a response of the back
    end or a string that starts with ["ERROR: "]. *)
Theorem generate_content_text_or_marker (E : env) (prompt_text model_name : str)
    (temperature : Q) (retries : Z) (delay_seconds : N) (w : world) :
  let generated_val :=
    (generate_content E prompt_text model_name temperature retries delay_seconds w).1 in
  (∃ k text, api_call E k = Responded text ∧ generated_val = PyStr.strip text) ∨
  PyStr.startswith (lit "ERROR: ") generated_val = true.
Proof.
  intros generated_val. subst generated_val. rewrite generate_content_result.
  destruct (generate_result E prompt_text model_name temperature retries delay_seconds w)
    as [res w'] eqn:Hrun.
  cbn [fst].
  destruct res as [t| | | | | | | |]; try (right; reflexivity).
  left. unfold generate_result in Hrun.
  destruct (provider_of model_name) as [p|]; [|discriminate].
  destruct (key_missing (api_key E p)); [discriminate|].
  unfold bind at 1 in Hrun. unfold do_client_setup in Hrun.
  destruct (client_setup E (client_setups w)); [discriminate|].
  destruct (Z.to_nat retries) as [|n] eqn:Hn; [discriminate|].
  destruct (attempts_return E p prompt_text retries delay_seconds n 0
              {| trace := trace w ++ [ClientSetup p] |}) as (r & w2 & Hat & _ & Hgen); [lia|].
  unfold bind in Hrun. rewrite Hat in Hrun. cbn in Hrun. injection Hrun as -> _.
  destruct (Hgen t eq_refl) as (k & text & Hk & Ht). by exists k, text.
Qed.

(** X5.  The two exits before the loop that are left: a model name of no known
    provider gives ["ERROR: Unsupported model provider."] and leaves the
    history as it was; a client whose construction raises gives
    ["ERROR: Setup - <detail>"] with no API call and no wait. *)
Theorem generate_content_before_loop (E : env) (prompt_text model_name : str)
    (temperature : Q) (retries : Z) (delay_seconds : N) (w : world) :
  (provider_of model_name = None →
   generate_content E prompt_text model_name temperature retries delay_seconds w =
     (lit "ERROR: Unsupported model provider.", w)) ∧
  (∀ p detail,
     provider_of model_name = Some p →
     key_missing (api_key E p) = false →
     client_setup E (client_setups w) = Some detail →
     generate_content E prompt_text model_name temperature retries delay_seconds w =
       (lit "ERROR: Setup - " ++ detail, {| trace := trace w ++ [ClientSetup p] |})).
Proof.
  split.
  - intros Hp. unfold generate_content, generate_result, bind. by rewrite Hp.
  - intros p detail Hp Hkey Hsetup. unfold generate_content, generate_result.
    rewrite Hp, Hkey. unfold bind, do_client_setup. by rewrite Hsetup.
Qed.

Lemma generate_content_before_loop_witness :
  generate_content env_setup_raising (lit "prompt") (lit "llama-3") (3 # 5) 3 5 no_history =
    (lit "ERROR: Unsupported model provider.", no_history) ∧
  generate_content env_setup_raising (lit "prompt") gemini_model (3 # 5) 3 5 no_history =
    (lit "ERROR: Setup - " ++ lit "invalid key format", {| trace := [ClientSetup Gemini] |}).
Proof.
  split.
  - apply (proj1 (generate_content_before_loop env_setup_raising (lit "prompt")
                    (lit "llama-3") (3 # 5) 3 5 no_history)). reflexivity.
  - apply (proj2 (generate_content_before_loop env_setup_raising (lit "prompt")
                    gemini_model (3 # 5) 3 5 no_history) Gemini (lit "invalid key format"));
      reflexivity.
Defined.

(** X6.  With [retries] at zero or below the loop has no turn: once the client is
    set up the function returns ["ERROR: Max retries."] without any API
    call and without any wait. *)
Theorem generate_content_no_attempt (E : env) (prompt_text model_name : str)
    (temperature : Q) (retries : Z) (delay_seconds : N) (p : provider) (w : world) :
  provider_of model_name = Some p →
  key_missing (api_key E p) = false →
  client_setup E (client_setups w) = None →
  (retries ≤ 0)%Z →
  generate_content E prompt_text model_name temperature retries delay_seconds w =
    (lit "ERROR: Max retries.", {| trace := trace w ++ [ClientSetup p] |}).
Proof.
  intros Hp Hkey Hsetup Hretries. unfold generate_content, generate_result.
  rewrite Hp, Hkey. unfold bind, do_client_setup. rewrite Hsetup.
  by replace (Z.to_nat retries) with 0%nat by lia.
Qed.

Lemma generate_content_no_attempt_witness :
  generate_content env_answering (lit "prompt") gemini_model (3 # 5) 0 5 no_history =
    (lit "ERROR: Max retries.", {| trace := [ClientSetup Gemini] |}).
Proof.
  apply (generate_content_no_attempt env_answering (lit "prompt") gemini_model (3 # 5)
           0 5 Gemini no_history); [reflexivity | reflexivity | reflexivity | lia].
Defined.

(** ** More on prompt formatting *)

Lemma replace_absent (old new s : str) :
  PyStr.contains old s = false → PyStr.replace old new s = s.
Proof.
  destruct old as [|a old]; [by destruct s|].
  unfold PyStr.replace. induction s as [|c s IH]; [done|].
  cbn [PyStr.contains]. intros [Hstart Hrest]%orb_false_iff.
  rewrite replace_unmatched by done. by rewrite IH.
Qed.

(** X7.  A template in which none of the nine tokens occurs comes back as it is,
    whatever the values are (token syntax in a value included). *)
Theorem fmt_prompt_without_token (st : SessionState) (prompt_template a b c : str) :
  (∀ name, name ∈ (context st a b c).*1 →
           PyStr.contains (token name) prompt_template = false) →
  fmt_prompt st prompt_template (Text a) (Text b) (Text c) = Some prompt_template.
Proof.
  intros Hno. rewrite fmt_prompt_foldl. f_equal.
  induction (context st a b c) as [|[n v] ctx IH]; [done|].
  cbn [foldl fst snd]. rewrite replace_absent by (apply Hno; left).
  apply IH. intros name Hname. apply Hno. by right.
Qed.

Lemma fmt_prompt_without_token_witness :
  fmt_prompt blank_session (lit "Hello [UNKNOWN]")
    (Text (lit "[PRIMARY_KEYWORD]")) (Text (lit "[TOPIC_INPUT]")) (Text [])
  = Some (lit "Hello [UNKNOWN]").
Proof.
  apply (fmt_prompt_without_token blank_session (lit "Hello [UNKNOWN]")
           (lit "[PRIMARY_KEYWORD]") (lit "[TOPIC_INPUT]") []).
  intros name Hname. cbn in Hname.
  repeat (apply elem_of_cons in Hname as [->|Hname]; [reflexivity|]).
  by apply elem_of_nil in Hname.
Defined.

Lemma context_well_formed (st : SessionState) (a b c : str) :
  Forall (λ v, lbracket ∉ v) (context_texts st a b c) →
  Forall (λ kv, (rbracket ∉ kv.1) ∧ (lbracket ∉ kv.2)) (context st a b c).
Proof.
  unfold context_texts, context. intros Htexts.
  repeat match goal with
         | H : Forall _ (_ :: _) |- _ => apply Forall_cons in H as [? H]
         end.
  repeat (constructor;
          [split; [compute_done | first [done | apply str_of_int_no_lbracket]]|]).
  constructor.
Qed.

Lemma resolve_segment_idempotent (ctx : list (str * str)) (s : segment) :
  resolve_segment ctx (resolve_segment ctx s) = resolve_segment ctx s.
Proof.
  destruct s as [text|n]; simpl; [done|].
  destruct (context_value ctx n) eqn:Hv; simpl; [done | by rewrite Hv].
Qed.

Lemma resolve_segment_ok (ctx : list (str * str)) (s : segment) :
  Forall (λ kv, (rbracket ∉ kv.1) ∧ (lbracket ∉ kv.2)) ctx →
  segment_ok s → segment_ok (resolve_segment ctx s).
Proof.
  intros Hctx Hs. destruct s as [text|n]; simpl; [done|].
  destruct (context_value ctx n) as [v|] eqn:Hv; [|done]. simpl.
  induction Hctx as [|[m u] ctx' [_ Hu] _ IH]; [done|].
  simpl in Hv. case_bool_decide; [by injection Hv as <- | by apply IH].
Qed.

(** X8.  Formatting is idempotent on such templates and values: formatting the
    formatted prompt again changes nothing. *)
Theorem fmt_prompt_idempotent (st : SessionState) (segs : list segment) (a b c : str) :
  Forall segment_ok segs →
  Forall (λ v, lbracket ∉ v) (context_texts st a b c) →
  ∃ p, fmt_prompt st (render_template segs) (Text a) (Text b) (Text c) = Some p ∧
       fmt_prompt st p (Text a) (Text b) (Text c) = Some p.
Proof.
  intros Hok Htexts. pose proof (context_well_formed st a b c Htexts) as Hctx.
  exists (render_template (resolve_segment (context st a b c) <$> segs)).
  rewrite !fmt_prompt_foldl. split.
  - f_equal. by apply replace_all_template.
  - f_equal. rewrite replace_all_template; [|done|].
    + f_equal. rewrite <- list_fmap_compose. apply list_fmap_ext.
      intros i s _. apply resolve_segment_idempotent.
    + apply Forall_fmap. eapply Forall_impl; [exact Hok|].
      intros s Hs. by apply resolve_segment_ok.
Qed.

Lemma fmt_prompt_idempotent_witness :
  ∃ p, fmt_prompt blank_session (lit "Title about [TOPIC_INPUT] ([UNKNOWN])")
         (Text (lit "baristas")) (Text []) (Text []) = Some p ∧
       fmt_prompt blank_session p (Text (lit "baristas")) (Text []) (Text []) = Some p.
Proof.
  exact (fmt_prompt_idempotent blank_session
           [Literal (lit "Title about "); Placeholder (lit "TOPIC_INPUT"); Literal (lit " (");
            Placeholder (lit "UNKNOWN"); Literal (lit ")")]
           (lit "baristas") [] []
           ltac:(repeat constructor; compute_done)
           ltac:(repeat constructor; compute_done)).
Defined.

(** ** More on the approved-link audit *)

Lemma text_before_first_no_sep (sep : char) (s : str) :
  sep ∉ text_before_first sep s.
Proof.
  induction s as [|c s IH]; simpl; [apply not_elem_of_nil|].
  destruct (N.eqb_spec c sep); [apply not_elem_of_nil|].
  apply not_elem_of_cons. split; [congruence | done].
Qed.

Lemma lstrip_suffix (s : str) : ∃ spaces, s = spaces ++ PyStr.lstrip s.
Proof.
  induction s as [|c s [spaces IH]]; [by exists []|]. simpl.
  destruct (PyStr.isspace c); [|by exists []].
  exists (c :: spaces). simpl. by rewrite <- IH.
Qed.

Lemma elem_of_rev (s : str) (c : char) : c ∈ rev s ↔ c ∈ s.
Proof. rewrite !list_elem_of_In. symmetry. apply in_rev. Qed.

Lemma strip_elements (s : str) (c : char) : c ∈ PyStr.strip s → c ∈ s.
Proof.
  unfold PyStr.strip, PyStr.rstrip. intros Hc.
  apply (proj1 (elem_of_rev _ _)) in Hc.
  destruct (lstrip_suffix (rev (PyStr.lstrip s))) as [sp1 H1].
  assert (c ∈ rev (PyStr.lstrip s)) as Hc2.
  { rewrite H1. apply elem_of_app. by right. }
  apply (proj1 (elem_of_rev _ _)) in Hc2.
  destruct (lstrip_suffix s) as [sp2 H2]. rewrite H2. apply elem_of_app. by right.
Qed.

Lemma join_elements (sep : str) (l : list str) (c : char) :
  c ∈ PyStr.join sep l → c ∈ sep ∨ ∃ x, x ∈ l ∧ c ∈ x.
Proof.
  induction l as [|x l IH]; simpl; [by intros ?%elem_of_nil|].
  destruct l as [|y l].
  - intros Hc. right. exists x. split; [left | done].
  - rewrite !elem_of_app. intros [Hc|[Hc|Hc]].
    + right. exists x. split; [left | done].
    + by left.
    + destruct (IH Hc) as [?|(z & Hz & Hcz)]; [by left|].
      right. exists z. split; [by right | done].
Qed.

Lemma approved_urls_no_colon (raw : str) (url : str) :
  url ∈ approved_urls_full raw → colon ∉ url.
Proof.
  rewrite approved_urls_full_spec. unfold approved_urls_spec.
  intros (line & -> & _)%list_elem_of_fmap Hc.
  apply strip_elements in Hc. by apply text_before_first_no_sep in Hc.
Qed.

(** X9.  No approved entry and neither derived field ever contains a colon: the
    audit cannot report a URL together with its scheme. *)
Theorem audit_links_never_colon (raw_internal raw_external generated_val : str) :
  (∀ url, url ∈ approved_urls_full raw_internal → colon ∉ url) ∧
  (∀ url, url ∈ approved_urls_full raw_external → colon ∉ url) ∧
  (colon ∉ (audit_links raw_internal raw_external generated_val).1) ∧
  (colon ∉ (audit_links raw_internal raw_external generated_val).2).
Proof.
  assert (Hfound : ∀ raw, colon ∉ found_links_in_html (approved_urls_full raw) generated_val).
  { intros raw Hc. unfold found_links_in_html in Hc.
    apply join_elements in Hc as [Hc|(url & Hurl & Hc)].
    - revert Hc. compute_done.
    - apply list_elem_of_filter in Hurl as [_ Hurl].
      by apply approved_urls_no_colon in Hurl. }
  split_and!; [apply approved_urls_no_colon | apply approved_urls_no_colon | apply Hfound ..].
Qed.

Lemma splitlines_from_one_line (s : str) :
  Forall (λ c, PyStr.islinebreak c = false) s →
  ∀ cur, cur ≠ [] ∨ s ≠ [] → PyStr.splitlines_from cur s = [rev cur ++ s].
Proof.
  induction 1 as [|c s Hc Hs IH]; intros cur Hne.
  - destruct Hne as [Hne|Hne]; [|done]. simpl. rewrite app_nil_r. by destruct cur.
  - cbn [PyStr.splitlines_from]. rewrite Hc. rewrite IH by (by left).
    simpl. by rewrite <- app_assoc.
Qed.

Lemma text_before_first_app (sep : char) (u d : str) :
  sep ∉ u → text_before_first sep (u ++ sep :: d) = u.
Proof.
  induction u as [|c u IH]; intros Hu; simpl.
  - by rewrite N.eqb_refl.
  - apply not_elem_of_cons in Hu as [Hne Hu].
    destruct (N.eqb_spec c sep); [congruence|]. by rewrite IH.
Qed.

Lemma lstrip_keeps (s : str) (c : char) :
  c ∈ s → PyStr.isspace c = false → c ∈ PyStr.lstrip s.
Proof.
  induction s as [|x s IH]; intros Hc Hsp; [done|]. simpl.
  destruct (PyStr.isspace x) eqn:Hx; [|done].
  apply elem_of_cons in Hc as [->|Hc]; [congruence | by apply IH].
Qed.

Lemma strip_keeps (s : str) (c : char) :
  c ∈ s → PyStr.isspace c = false → c ∈ PyStr.strip s.
Proof.
  intros Hc Hsp. unfold PyStr.strip, PyStr.rstrip.
  apply elem_of_rev, lstrip_keeps; [|done]. apply elem_of_rev. by apply lstrip_keeps.
Qed.

(** X10.  A list of one line [url: description], the URL part without a colon,
    gives the single approved entry [url.strip()]: the description plays no
    part in the audit, which reports that entry when it occurs in the body
    and the empty string when it does not. *)
Theorem approved_urls_one_line (url description generated_val : str) :
  colon ∉ url →
  Forall (λ c, PyStr.islinebreak c = false) (url ++ colon :: description) →
  approved_urls_full (url ++ colon :: description) = [PyStr.strip url] ∧
  audit_links (url ++ colon :: description) [] generated_val =
    (if PyStr.contains (PyStr.strip url) generated_val then PyStr.strip url else [], []).
Proof.
  intros Hurl Hline.
  assert (Happroved : approved_urls_full (url ++ colon :: description) = [PyStr.strip url]).
  { rewrite approved_urls_full_spec. unfold approved_urls_spec, PyStr.splitlines.
    rewrite splitlines_from_one_line; [|done|right; by destruct url].
    cbn [rev app]. rewrite filter_cons_True.
    - cbn [fmap list_fmap filter list_filter]. by rewrite text_before_first_app.
    - split.
      + intros Hempty.
        assert (colon ∈ PyStr.strip (url ++ colon :: description)) as Hin.
        { apply strip_keeps; [|reflexivity]. apply elem_of_app. right. left. }
        rewrite Hempty in Hin. by apply elem_of_nil in Hin.
      + apply elem_of_app. right. left. }
  split; [done|]. unfold audit_links. rewrite Happroved.
  unfold found_links_in_html. rewrite filter_cons.
  destruct (decide (PyStr.contains (PyStr.strip url) generated_val = true)) as [Hc|Hc].
  - by rewrite Hc.
  - apply not_true_is_false in Hc. by rewrite Hc.
Qed.

Lemma approved_urls_one_line_witness :
  approved_urls_full (lit "workstream.us/pricing : Plans and pricing") =
    [lit "workstream.us/pricing"] ∧
  audit_links (lit "workstream.us/pricing : Plans and pricing") []
    (lit "<a href='workstream.us/pricing'>plans</a>") =
    (lit "workstream.us/pricing", []).
Proof.
  exact (approved_urls_one_line (lit "workstream.us/pricing ") (lit " Plans and pricing")
           (lit "<a href='workstream.us/pricing'>plans</a>")
           ltac:(compute_done) ltac:(repeat constructor)).
Defined.

(** ** More on the batch *)

Lemma fmt_prompt_raises (st : SessionState) (prompt_template : str) (a b c : cell) :
  fmt_prompt st prompt_template a b c = None ↔
  cell_is_text a && cell_is_text b && cell_is_text c = false.
Proof.
  destruct a as [a|], b as [b|], c as [c|]; cbn [cell_is_text andb];
    try (split; [done | intros _; reflexivity]).
  rewrite fmt_prompt_foldl. split; discriminate.
Qed.

Section BatchRuns.

Variable E : env.
Variable st : SessionState.

(** A field without a template costs nothing. *)
Lemma generate_field_no_template a b c output_row field_to_gen w :
  has_template st field_to_gen = false →
  generate_field E st a b c output_row field_to_gen w =
    (Some (<[field_to_gen := Text (lit "ERROR: No Prompt")]> output_row), w).
Proof.
  unfold has_template, generate_field.
  by destruct (editable_prompts st !! field_to_gen) as [[|ch t]|].
Qed.

Lemma generate_field_raises a b c output_row field_to_gen w :
  (generate_field E st a b c output_row field_to_gen w).1 = None ↔
  has_template st field_to_gen = true ∧
  cell_is_text a && cell_is_text b && cell_is_text c = false.
Proof.
  destruct (has_template st field_to_gen) eqn:Ht.
  - unfold has_template in Ht. unfold generate_field.
    destruct (editable_prompts st !! field_to_gen) as [[|ch t]|]; try discriminate.
    destruct (fmt_prompt st (ch :: t) a b c) as [p|] eqn:Hfmt.
    + unfold bind at 1.
      destruct (generate_content E p (model_name st) (llm_temperature st) 3 5 w).
      unfold bind, emit, ret. cbn [fst]. split; [discriminate|].
      intros [_ Hc]. apply (proj2 (fmt_prompt_raises st (ch :: t) a b c)) in Hc.
      congruence.
    + cbn [ret fst]. apply (proj1 (fmt_prompt_raises st (ch :: t) a b c)) in Hfmt. done.
  - rewrite generate_field_no_template by done. cbn [fst]. split; [discriminate|].
    by intros [? _].
Qed.

Lemma generate_fields_raises a b c fields :
  ∀ output_row w,
    (generate_fields E st a b c output_row fields w).1 = None ↔
    existsb (has_template st) fields = true ∧
    cell_is_text a && cell_is_text b && cell_is_text c = false.
Proof.
  induction fields as [|f fields IH]; intros output_row w.
  - simpl. split; [discriminate | by intros [? _]].
  - cbn [generate_fields existsb]. unfold bind at 1.
    pose proof (generate_field_raises a b c output_row f w) as Hf.
    destruct (generate_field E st a b c output_row f w) as [[row1|] w1]; cbn [fst] in Hf.
    + rewrite IH. rewrite orb_true_iff. split.
      * intros [? ?]. split; [by right | done].
      * intros [[Hft|?] Hc]; [|done].
        assert (@None (gmap string cell) = Some row1 → False) by discriminate.
        exfalso. destruct Hf as [_ Hf]. by specialize (Hf (conj Hft Hc)).
    + cbn [ret fst]. destruct Hf as [Hf _]. destruct (Hf eq_refl) as [-> Hc].
      by rewrite orb_true_l.
Qed.

Lemma generate_row_raises topic_row w :
  (generate_row E st topic_row w).1 = None ↔ row_raises st topic_row = true.
Proof.
  unfold generate_row, row_raises. rewrite generate_fields_raises.
  fold (topic_input_of topic_row) (primary_keyword_of topic_row)
       (secondary_keywords_of topic_row).
  rewrite andb_true_iff, negb_true_iff. done.
Qed.

Lemma generate_rows_cons acc topic_row records w :
  generate_rows E st acc (topic_row :: records) w =
  match generate_row E st topic_row w with
  | (Some output_row, w1) => generate_rows E st (acc ++ [output_row]) records w1
  | (None, w1) => (UncaughtTypeError, w1)
  end.
Proof.
  cbn [generate_rows]. unfold bind.
  by destruct (generate_row E st topic_row w) as [[row|] w1].
Qed.

Lemma generate_rows_result records :
  ∀ acc w,
    if existsb (row_raises st) records
    then (generate_rows E st acc records w).1 = UncaughtTypeError
    else ∃ l, (generate_rows E st acc records w).1 = Completed (acc ++ l) ∧
              length l = length records.
Proof.
  induction records as [|topic_row records IH]; intros acc w.
  - simpl. exists []. by rewrite app_nil_r.
  - rewrite generate_rows_cons. cbn [existsb].
    pose proof (generate_row_raises topic_row w) as Hrow.
    destruct (generate_row E st topic_row w) as [[row|] w1]; cbn [fst] in Hrow.
    + destruct (row_raises st topic_row) eqn:Hr.
      { destruct Hrow as [_ Hrow]. by specialize (Hrow eq_refl). }
      cbn [orb]. specialize (IH (acc ++ [row]) w1).
      destruct (existsb (row_raises st) records); [done|].
      destruct IH as (l & Hl & Hlen). exists (row :: l).
      rewrite Hl, <- app_assoc. split; [done | simpl; lia].
    + destruct Hrow as [Hrow _]. rewrite (Hrow eq_refl). done.
Qed.

(** With no template at all, nothing is generated and nothing can raise. *)
Lemma generate_fields_no_template a b c fields :
  existsb (has_template st) fields = false →
  ∀ output_row w,
    generate_fields E st a b c output_row fields w =
      (Some (foldl (λ row f, <[f := Text (lit "ERROR: No Prompt")]> row) output_row fields),
       w).
Proof.
  induction fields as [|f fields IH]; intros Hno output_row w; [done|].
  cbn [existsb] in Hno. apply orb_false_iff in Hno as [Hf Hno].
  cbn [generate_fields foldl]. unfold bind at 1.
  rewrite generate_field_no_template by done. by apply IH.
Qed.

Lemma generate_rows_no_template records :
  existsb (has_template st) FIELDS = false →
  ∀ acc w,
    generate_rows E st acc records w = (Completed (acc ++ (no_prompt_row <$> records)), w).
Proof.
  intros Hno. induction records as [|topic_row records IH]; intros acc w.
  - simpl. by rewrite app_nil_r.
  - rewrite generate_rows_cons. unfold generate_row.
    rewrite generate_fields_no_template by done.
    rewrite IH, fmap_cons, <- app_assoc. done.
Qed.

End BatchRuns.

(** X11.  The batch in the mode "all" ends in an uncaught [TypeError] exactly when
    some field has a template and some row has a value that is not text
    under one of the three topic columns; in every other case, whatever the
    API calls do, it ends with one output row per topic row. *)
Theorem run_generation_raises_iff (E : env) (st : SessionState) (w : world) :
  df_empty (topics_df st) = false →
  first_only st = false →
  let r := run_generation E st w in
  if existsb (row_raises st) (to_dict_records (topics_df st))
  then r.1 = UncaughtTypeError
  else ∃ all_generated_data_list,
         r.1 = Completed all_generated_data_list ∧
         length all_generated_data_list = length (df_rows (topics_df st)).
Proof.
  intros Hempty Hmode r. subst r. unfold run_generation. rewrite Hempty, Hmode.
  cbn [andb].
  pose proof (generate_rows_result E st (to_dict_records (topics_df st)) [] w) as H.
  destruct (existsb (row_raises st) (to_dict_records (topics_df st))); [done|].
  destruct H as (l & Hl & Hlen). exists l. split; [done|].
  rewrite Hlen. unfold to_dict_records. by rewrite length_fmap.
Qed.

Lemma run_generation_raises_iff_witness :
  (run_generation env_answering session_with_missing_cell no_history).1 = UncaughtTypeError ∧
  ∃ all_generated_data_list,
    (run_generation env_always_raising demo_session no_history).1
      = Completed all_generated_data_list ∧
    length all_generated_data_list = 2%nat.
Proof.
  split.
  - exact (run_generation_raises_iff env_answering session_with_missing_cell no_history
             eq_refl eq_refl).
  - exact (run_generation_raises_iff env_always_raising demo_session no_history
             eq_refl eq_refl).
Defined.

(** X12.  When no field has a template the batch touches nothing: no client, no
    API call, no wait; every topic row, whatever its cells, gives an output
    row with the three topic values and ["ERROR: No Prompt"] in the six
    fields, and without the two derived fields. *)
Theorem run_generation_without_templates (E : env) (st : SessionState) (w : world) :
  df_empty (topics_df st) = false →
  first_only st = false →
  existsb (has_template st) FIELDS = false →
  run_generation E st w =
    (Completed (no_prompt_row <$> to_dict_records (topics_df st)), w) ∧
  ∀ topic_row,
    no_prompt_row topic_row !! "found_internal_links_in_html"%string = None ∧
    no_prompt_row topic_row !! "found_external_links_in_html"%string = None ∧
    no_prompt_row topic_row !! "topic_input"%string = Some (topic_input_of topic_row) ∧
    ∀ f, f ∈ FIELDS → no_prompt_row topic_row !! f = Some (Text (lit "ERROR: No Prompt")).
Proof.
  intros Hempty Hmode Hno. split.
  - unfold run_generation. rewrite Hempty, Hmode. cbn [andb].
    by rewrite generate_rows_no_template.
  - intros topic_row. unfold no_prompt_row, initial_row, FIELDS. cbn [foldl].
    split_and!.
    + by rewrite !lookup_insert_ne, lookup_empty.
    + by rewrite !lookup_insert_ne, lookup_empty.
    + rewrite !(lookup_insert_ne _ _ "topic_input"%string) by done.
      apply lookup_insert_eq.
    + intros f Hf.
      repeat (apply elem_of_cons in Hf as [->|Hf];
              [by repeat first [apply lookup_insert_eq | rewrite lookup_insert_ne by done]|]).
      by apply elem_of_nil in Hf.
Qed.

Lemma run_generation_without_templates_witness :
  run_generation env_answering
    {| model_name := gemini_model; topics_df := topic_without_secondary_keywords;
       approved_internal_links := []; approved_external_links := [];
       brand_guidelines := []; seo_summary := [];
       target_internal_links := 2; target_external_links := 1;
       llm_temperature := (3 # 5)%Q; editable_prompts := ∅; others := ∅ |} no_history
  = (Completed (no_prompt_row <$> to_dict_records topic_without_secondary_keywords),
     no_history).
Proof.
  exact (proj1 (run_generation_without_templates env_answering
                  {| model_name := gemini_model;
                     topics_df := topic_without_secondary_keywords;
                     approved_internal_links := []; approved_external_links := [];
                     brand_guidelines := []; seo_summary := [];
                     target_internal_links := 2; target_external_links := 1;
                     llm_temperature := (3 # 5)%Q; editable_prompts := ∅; others := ∅ |}
                  no_history eq_refl eq_refl eq_refl)).
Defined.

Section BatchRows.

Variable E : env.
Variable st : SessionState.

Lemma derived_key_not_field k f : derived_key k → f ∈ FIELDS → k ≠ f.
Proof.
  intros [-> | ->] Hf Heq; subst f; unfold FIELDS in Hf;
    repeat (apply elem_of_cons in Hf as [Hf|Hf]; [discriminate|]);
    by apply elem_of_nil in Hf.
Qed.

(** What one turn of the field loop does to the keys of the row. *)
Lemma generate_field_keys a b c output_row field_to_gen w output_row' w' :
  field_to_gen ∈ FIELDS →
  generate_field E st a b c output_row field_to_gen w = (Some output_row', w') →
  is_Some (output_row' !! field_to_gen) ∧
  (∀ k, is_Some (output_row !! k) → is_Some (output_row' !! k)) ∧
  (∀ k, k ∉ FIELDS → ¬ derived_key k → output_row' !! k = output_row !! k) ∧
  (∀ k, derived_key k →
        (is_Some (output_row' !! k) ↔
         is_Some (output_row !! k) ∨
         (field_to_gen = "main_text_html"%string ∧ has_template st field_to_gen = true))).
Proof.
  intros Hin Hrun.
  assert (Hins : ∀ (row : gmap string cell) f v k,
             is_Some (row !! k) → is_Some (<[f := v]> row !! k)).
  { intros row f v k Hk. destruct (decide (f = k)) as [->|Hne].
    - rewrite lookup_insert_eq. by eexists.
    - by rewrite lookup_insert_ne. }
  destruct (has_template st field_to_gen) eqn:Ht.
  - unfold has_template in Ht. unfold generate_field in Hrun.
    destruct (editable_prompts st !! field_to_gen) as [[|ch t]|]; try discriminate.
    destruct (fmt_prompt st (ch :: t) a b c) as [p|]; [|discriminate].
    unfold bind at 1 in Hrun.
    destruct (generate_content E p (model_name st) (llm_temperature st) 3 5 w)
      as [generated_val w1].
    unfold bind, emit, ret in Hrun. injection Hrun as <- _.
    case_bool_decide as Hmain.
    + subst field_to_gen. split_and!.
      * rewrite !lookup_insert_ne by done. rewrite lookup_insert_eq. by eexists.
      * intros k Hk. by do 3 apply Hins.
      * intros k Hk Hd. rewrite !lookup_insert_ne; [done | | |].
        -- intros <-. by apply Hk.
        -- intros <-. apply Hd. by left.
        -- intros <-. apply Hd. by right.
      * intros k [-> | ->].
        -- rewrite lookup_insert_ne by done. rewrite lookup_insert_eq.
           split; [by right | by eexists].
        -- rewrite lookup_insert_eq. split; [by right | by eexists].
    + split_and!.
      * rewrite lookup_insert_eq. by eexists.
      * intros k Hk. by apply Hins.
      * intros k Hk Hd. rewrite lookup_insert_ne; [done|]. intros <-. by apply Hk.
      * intros k Hk. rewrite lookup_insert_ne by (symmetry; by apply derived_key_not_field).
        split; [by left | by intros [?|[? _]]].
  - rewrite generate_field_no_template in Hrun by done. injection Hrun as <- _.
    split_and!.
    + rewrite lookup_insert_eq. by eexists.
    + intros k Hk. by apply Hins.
    + intros k Hk Hd. rewrite lookup_insert_ne; [done|]. intros <-. by apply Hk.
    + intros k Hk. rewrite lookup_insert_ne by (symmetry; by apply derived_key_not_field).
      split; [by left | by intros [?|[_ ?]]].
Qed.

Lemma generate_fields_keys a b c fields :
  Forall (λ f, f ∈ FIELDS) fields →
  ∀ output_row w output_row' w',
    generate_fields E st a b c output_row fields w = (Some output_row', w') →
    (∀ f, f ∈ fields → is_Some (output_row' !! f)) ∧
    (∀ k, is_Some (output_row !! k) → is_Some (output_row' !! k)) ∧
    (∀ k, k ∉ FIELDS → ¬ derived_key k → output_row' !! k = output_row !! k) ∧
    (∀ k, derived_key k →
          (is_Some (output_row' !! k) ↔
           is_Some (output_row !! k) ∨
           ("main_text_html"%string ∈ fields ∧
            has_template st "main_text_html" = true))).
Proof.
  induction 1 as [|f fields Hf Hfields IH]; intros output_row w output_row' w' Hrun.
  - injection Hrun as <- _. split_and!; try done.
    + intros f Hf. by apply elem_of_nil in Hf.
    + intros k Hk. split; [by left|]. intros [?|[Hin _]]; [done|].
      by apply elem_of_nil in Hin.
  - cbn [generate_fields] in Hrun. unfold bind at 1 in Hrun.
    destruct (generate_field E st a b c output_row f w) as [[row1|] w1] eqn:Hfield;
      [|discriminate].
    destruct (generate_field_keys _ _ _ _ _ _ _ _ Hf Hfield) as (H1 & H2 & H3 & H4).
    destruct (IH _ _ _ _ Hrun) as (I1 & I2 & I3 & I4).
    split_and!.
    + intros f' [->|Hin]%elem_of_cons; [by apply I2 | by apply I1].
    + intros k Hk. by apply I2, H2.
    + intros k Hk Hd. by rewrite I3, H3.
    + intros k Hk. rewrite I4, H4 by done. rewrite elem_of_cons. split.
      * intros [[?|[-> ?]]|[? ?]]; [by left | right | right]; split; auto.
      * intros [?|[[Heq|?] ?]]; [by left; left | left; right; by subst f | by right].
Qed.

Lemma initial_row_lookups topic_row :
  initial_row topic_row !! "topic_input"%string = Some (topic_input_of topic_row) ∧
  initial_row topic_row !! "primary_keyword"%string = Some (primary_keyword_of topic_row) ∧
  initial_row topic_row !! "secondary_keywords"%string
    = Some (secondary_keywords_of topic_row) ∧
  ∀ k, derived_key k → initial_row topic_row !! k = None.
Proof.
  unfold initial_row. split_and!.
  - rewrite !lookup_insert_ne by done. apply lookup_insert_eq.
  - rewrite lookup_insert_ne by done. apply lookup_insert_eq.
  - apply lookup_insert_eq.
  - intros k [-> | ->]; by rewrite !lookup_insert_ne, lookup_empty.
Qed.

Lemma generate_row_shape topic_row w output_row w' :
  generate_row E st topic_row w = (Some output_row, w') →
  row_shape st topic_row output_row.
Proof.
  unfold generate_row.
  fold (topic_input_of topic_row) (primary_keyword_of topic_row)
       (secondary_keywords_of topic_row).
  fold (initial_row topic_row). intros Hrun.
  destruct (generate_fields_keys _ _ _ FIELDS (proj2 (Forall_forall _ _) (λ f Hf, Hf))
              _ _ _ _ Hrun) as (H1 & _ & H3 & H4).
  destruct (initial_row_lookups topic_row) as (T1 & T2 & T3 & T4).
  assert (Hnd : ∀ k, k ∈ ["topic_input"; "primary_keyword"; "secondary_keywords"]%string →
                     (k ∉ FIELDS) ∧ ¬ derived_key k).
  { intros k Hk. repeat (apply elem_of_cons in Hk as [->|Hk];
                         [split; [compute_done | by intros [?|?]]|]).
    by apply elem_of_nil in Hk. }
  assert (Hmain : "main_text_html"%string ∈ FIELDS) by compute_done.
  unfold row_shape. split_and!.
  - destruct (Hnd "topic_input"%string) as [? ?]; [by left|]. by rewrite H3.
  - destruct (Hnd "primary_keyword"%string) as [? ?]; [by right; left|]. by rewrite H3.
  - destruct (Hnd "secondary_keywords"%string) as [? ?]; [by right; right; left|].
    by rewrite H3.
  - done.
  - rewrite H4 by (by left). rewrite T4 by (by left). split.
    + intros [[? ?]|[_ ?]]; [discriminate | done].
    + intros ?. by right.
  - rewrite H4 by (by right). rewrite T4 by (by right). split.
    + intros [[? ?]|[_ ?]]; [discriminate | done].
    + intros ?. by right.
Qed.

Lemma generate_rows_shape records :
  ∀ acc w l w',
    generate_rows E st acc records w = (Completed l, w') →
    ∃ l', l = acc ++ l' ∧ Forall2 (row_shape st) records l'.
Proof.
  induction records as [|topic_row records IH]; intros acc w l w' Hrun.
  - injection Hrun as <- _. exists []. by rewrite app_nil_r.
  - rewrite generate_rows_cons in Hrun.
    destruct (generate_row E st topic_row w) as [[row|] w1] eqn:Hrow; [|discriminate].
    destruct (IH _ _ _ _ Hrun) as (l' & -> & Hl').
    exists (row :: l'). rewrite <- app_assoc. split; [done|].
    constructor; [by eapply generate_row_shape | done].
Qed.

End BatchRows.

(** X13.  The output rows of a completed run in the mode "all" follow the topic
    rows one for one and in order: each holds the three topic values of its
    row, a value under each of the six fields, and the two derived fields
    exactly when [main_text_html] has a template. *)
Theorem run_generation_rows_shape (E : env) (st : SessionState) (w : world)
    (all_generated_data_list : list (gmap string cell)) :
  first_only st = false →
  (run_generation E st w).1 = Completed all_generated_data_list →
  Forall2 (row_shape st) (to_dict_records (topics_df st)) all_generated_data_list ∧
  all_generated_data_list ≠ [].
Proof.
  intros Hmode Hrun. unfold run_generation in Hrun. rewrite Hmode in Hrun.
  destruct (df_empty (topics_df st)) eqn:Hempty; [discriminate|].
  cbn [andb] in Hrun.
  destruct (generate_rows E st [] (to_dict_records (topics_df st)) w) as [res w'] eqn:Hrows.
  cbn [fst] in Hrun. subst res.
  destruct (generate_rows_shape E st _ _ _ _ _ Hrows) as (l' & -> & Hshape).
  split; [done|]. cbn [app]. intros ->.
  apply Forall2_length in Hshape. unfold to_dict_records in Hshape.
  rewrite length_fmap in Hshape. unfold df_empty in Hempty.
  destruct (df_columns (topics_df st)); [discriminate|].
  by destruct (df_rows (topics_df st)).
Qed.

Lemma run_generation_rows_shape_witness :
  ∃ l, (run_generation env_flaky demo_session no_history).1 = Completed l ∧
       Forall2 (row_shape demo_session) (to_dict_records (topics_df demo_session)) l ∧
       l ≠ [].
Proof.
  eexists. split; [by vm_compute|].
  apply (run_generation_rows_shape env_flaky demo_session no_history); [reflexivity|].
  by vm_compute.
Defined.

(** X14.  The test mode reads the first topic row only: it raises exactly when
    that row does and otherwise ends with the one output row of that topic,
    whatever the rows after it hold. *)
Theorem run_generation_first_only (E : env) (st : SessionState) (w : world) :
  first_only st = true →
  df_empty (topics_df st) = false →
  ∃ first,
    head (to_dict_records (topics_df st)) = Some first ∧
    if row_raises st first
    then (run_generation E st w).1 = UncaughtTypeError
    else ∃ output_row,
           (run_generation E st w).1 = Completed [output_row] ∧
           row_shape st first output_row.
Proof.
  intros Hmode Hempty. unfold run_generation. rewrite Hempty, Hmode.
  unfold df_empty in Hempty. unfold df_empty, df_head_1, to_dict_records. cbn [df_columns df_rows].
  destruct (df_columns (topics_df st)) as [|col cols] eqn:Hcols; [discriminate|].
  destruct (df_rows (topics_df st)) as [|row rows] eqn:Hrows; [discriminate|].
  cbn [take andb fmap list_fmap head]. eexists. split; [reflexivity|].
  rewrite generate_rows_cons.
  pose proof (generate_row_raises E st (PyDict.of_items (zip (col :: cols) row)) w) as Hr.
  destruct (generate_row E st (PyDict.of_items (zip (col :: cols) row)) w)
    as [[output_row|] w1] eqn:Hrow; cbn [fst] in Hr.
  - destruct (row_raises st (PyDict.of_items (zip (col :: cols) row))).
    { destruct Hr as [_ Hr]. by specialize (Hr eq_refl). }
    exists output_row. split; [done|]. by eapply generate_row_shape.
  - destruct Hr as [Hr _]. by rewrite (Hr eq_refl).
Qed.

Lemma run_generation_first_only_witness :
  ∃ first,
    head (to_dict_records (topics_df test_mode_session)) = Some first ∧
    if row_raises test_mode_session first
    then (run_generation env_answering test_mode_session no_history).1 = UncaughtTypeError
    else ∃ output_row,
           (run_generation env_answering test_mode_session no_history).1
             = Completed [output_row] ∧
           row_shape test_mode_session first output_row.
Proof.
  exact (run_generation_first_only env_answering test_mode_session no_history
           eq_refl eq_refl).
Defined.

(** *** The cost of a run *)

Lemma total_sleep_app (t1 t2 : list event) :
  total_sleep (t1 ++ t2) = total_sleep t1 + total_sleep t2.
Proof.
  unfold total_sleep, sleeps. rewrite omap_app.
  induction (omap _ t1) as [|x l IH]; simpl; [done|]. rewrite IH. lia.
Qed.

Section BatchCost.

Variable E : env.
Variable st : SessionState.

Lemma within_refl w : within 0 0 w w.
Proof. unfold within. split; lia. Qed.

Lemma within_trans c1 s1 c2 s2 w1 w2 w3 :
  within c1 s1 w1 w2 → within c2 s2 w2 w3 → within (c1 + c2) (s1 + s2) w1 w3.
Proof. unfold within. intros [? ?] [? ?]. split; lia. Qed.

Lemma generate_content_within prompt_text w :
  within 3 15 w (generate_content E prompt_text (model_name st) (llm_temperature st) 3 5 w).2.
Proof.
  destruct (generate_content_effects E prompt_text (model_name st) (llm_temperature st)
              3 5 w) as (j & Hj & Hcalls & _ & Hsleeps).
  unfold within. rewrite Hcalls. split; [simpl in Hj; lia|].
  unfold total_sleep. rewrite Hsleeps.
  fold (total_sleep (trace w)).
  assert (Happ : ∀ l1 l2, foldr N.add 0 (l1 ++ l2) = foldr N.add 0 l1 + foldr N.add 0 l2).
  { intros l1 l2. induction l1 as [|x l1 IH]; simpl; [done|]. rewrite IH. lia. }
  rewrite Happ. fold (total_sleep (trace w)).
  simpl in Hj. destruct j as [|[|[|[|j]]]]; simpl; lia.
Qed.

Lemma generate_field_within a b c output_row field_to_gen w :
  within 3 15 w (generate_field E st a b c output_row field_to_gen w).2.
Proof.
  unfold generate_field.
  destruct (editable_prompts st !! field_to_gen) as [[|ch t]|];
    [apply (within_trans 0 0 3 15 w w w); apply within_refl || (split; lia) | |
     apply (within_trans 0 0 3 15 w w w); apply within_refl || (split; lia)].
  destruct (fmt_prompt st (ch :: t) a b c) as [p|];
    [|apply (within_trans 0 0 3 15 w w w); apply within_refl || (split; lia)].
  unfold bind at 1. pose proof (generate_content_within p w) as Hw.
  destruct (generate_content E p (model_name st) (llm_temperature st) 3 5 w)
    as [generated_val w1].
  cbn [snd] in Hw. unfold bind, emit, ret. cbn [snd].
  destruct Hw as [Hc Hs]. split.
  - unfold api_calls in *. cbn [trace]. rewrite List.filter_app, length_app. simpl. lia.
  - cbn [trace]. rewrite total_sleep_app. unfold total_sleep at 2. simpl. lia.
Qed.

Lemma generate_fields_within a b c fields :
  ∀ output_row w,
    within (3 * length fields) (15 * N.of_nat (length fields)) w
      (generate_fields E st a b c output_row fields w).2.
Proof.
  induction fields as [|f fields IH]; intros output_row w.
  - simpl. split; lia.
  - cbn [generate_fields]. unfold bind at 1.
    pose proof (generate_field_within a b c output_row f w) as Hf.
    destruct (generate_field E st a b c output_row f w) as [[row1|] w1]; cbn [snd] in Hf.
    + specialize (IH row1 w1). destruct Hf as [? ?], IH as [? ?].
      cbn [length]. split; lia.
    + cbn [ret snd length]. destruct Hf as [? ?]. split; lia.
Qed.

Lemma generate_rows_within records :
  ∀ acc w,
    within (18 * length records) (90 * N.of_nat (length records)) w
      (generate_rows E st acc records w).2.
Proof.
  induction records as [|topic_row records IH]; intros acc w.
  - simpl. split; lia.
  - rewrite generate_rows_cons.
    pose proof (generate_fields_within (topic_input_of topic_row)
                  (primary_keyword_of topic_row) (secondary_keywords_of topic_row)
                  FIELDS (initial_row topic_row) w) as Hrow.
    change (generate_fields E st (topic_input_of topic_row) (primary_keyword_of topic_row)
              (secondary_keywords_of topic_row) (initial_row topic_row) FIELDS w)
      with (generate_row E st topic_row w) in Hrow.
    change (length FIELDS) with 6%nat in Hrow.
    destruct (generate_row E st topic_row w) as [[row|] w1]; cbn [snd] in Hrow.
    + specialize (IH (acc ++ [row]) w1). destruct Hrow as [? ?], IH as [? ?].
      cbn [length] in *. split; lia.
    + cbn [snd length]. destruct Hrow as [? ?]. cbn [length] in *. split; lia.
Qed.

End BatchCost.

(** X15.  The cost of a run, whatever the table, the templates and the outcomes
    of the calls: at most 18 API calls and 90 seconds of back-off for every
    topic row it reads (three attempts and waits of 5 and 10 seconds for
    each of the six fields). *)
Theorem run_generation_budget (E : env) (st : SessionState) (w : world) :
  let r := run_generation E st w in
  (api_calls r.2 ≤ api_calls w + 18 * rows_processed st)%nat ∧
  total_sleep (trace r.2) ≤ total_sleep (trace w) + 90 * N.of_nat (rows_processed st).
Proof.
  intros r. subst r. unfold run_generation, rows_processed.
  destruct (df_empty (topics_df st)) eqn:Hempty; [cbn [ret snd]; split; lia|].
  destruct (first_only st).
  - destruct (df_empty (df_head_1 (topics_df st))); [cbn [andb ret snd]; split; lia|].
    cbn [andb].
    pose proof (generate_rows_within E st (to_dict_records (df_head_1 (topics_df st))) [] w)
      as H.
    unfold to_dict_records, df_head_1 in H. cbn [df_rows df_columns] in H.
    rewrite length_fmap, length_take in H. exact H.
  - cbn [andb].
    pose proof (generate_rows_within E st (to_dict_records (topics_df st)) [] w) as H.
    unfold to_dict_records in H. rewrite length_fmap in H. exact H.
Qed.

(** ** The script around the pipeline *)

(** *** [init_session_state] *)

Lemma setdefault_lookup (key k : string) (v : value) (m : gmap string value) :
  is_Some (setdefault key v m !! key) ∧
  (is_Some (m !! k) → setdefault key v m !! k = m !! k).
Proof.
  unfold setdefault. destruct (m !! key) as [x|] eqn:Hm.
  - split; [by rewrite Hm | done].
  - split; [rewrite lookup_insert_eq; by eexists|].
    intros [y Hy]. destruct (decide (key = k)) as [->|Hne]; [congruence|].
    by rewrite lookup_insert_ne.
Qed.

Lemma setdefault_keeps (key k : string) (v : value) (m : gmap string value) :
  is_Some (m !! k) → is_Some (setdefault key v m !! k).
Proof. intros H. by rewrite (proj2 (setdefault_lookup key k v m) H). Qed.

Lemma setdefault_present (key : string) (v : value) (m : gmap string value) :
  is_Some (m !! key) → setdefault key v m = m.
Proof. unfold setdefault. by intros [x ->]. Qed.

(** X17.  After [init_session_state] the topic table is never empty: an empty
    table is replaced by the two default topics, any other table and the
    nine settings are left as they are, and running it again changes
    nothing. *)
Theorem init_session_state_topics (st : SessionState) :
  topics_df (init_session_state st) =
    (if df_empty (topics_df st) then DEFAULT_TOPICS_DF else topics_df st) ∧
  df_empty (topics_df (init_session_state st)) = false ∧
  init_session_state (init_session_state st) = init_session_state st ∧
  Forall (λ key, getitem (init_session_state st) key = getitem st key) CONFIG_KEYS.
Proof.
  destruct st as [a df c d e f g h i j k].
  set (k' := setdefault "active_config_name" (VStr (lit "Defaults"))
               (setdefault "config_loaded_successfully" (VBool false)
                  (setdefault "uploaded_topics_filename" VNone k))).
  assert (Hk : setdefault "active_config_name" (VStr (lit "Defaults"))
                 (setdefault "config_loaded_successfully" (VBool false)
                    (setdefault "uploaded_topics_filename" VNone k')) = k').
  { assert (H1 : is_Some (k' !! "uploaded_topics_filename"%string)).
    { unfold k'. do 2 apply setdefault_keeps. apply setdefault_lookup. exact "". }
    assert (H2 : is_Some (k' !! "config_loaded_successfully"%string)).
    { unfold k'. apply setdefault_keeps. apply setdefault_lookup. exact "". }
    assert (H3 : is_Some (k' !! "active_config_name"%string)).
    { unfold k'. apply setdefault_lookup. exact "". }
    rewrite (setdefault_present "uploaded_topics_filename") by done.
    rewrite (setdefault_present "config_loaded_successfully") by done.
    by rewrite (setdefault_present "active_config_name"). }
  unfold init_session_state. cbn [set_others topics_df others]. fold k'.
  destruct (df_empty df) eqn:Hempty; cbn [set_topics_df topics_df others set_others].
  - split_and!; [done | done | | repeat constructor].
    change (df_empty DEFAULT_TOPICS_DF) with false. cbn iota. by rewrite Hk.
  - split_and!; [done | done | | repeat constructor].
    rewrite Hempty. by rewrite Hk.
Qed.

(** *** [load_config_from_dict] on any document *)

Lemma load_entries_None (config_dict : PyDict.dict value) :
  foldl (λ acc entry, acc ≫= λ s, load_entry s entry) None config_dict = None.
Proof. by induction config_dict. Qed.

Lemma load_entries_cons (k : string) (v : value) (d : PyDict.dict value) (s : SessionState) :
  load_entries ((k, v) :: d) s = load_entry s (k, v) ≫= load_entries d.
Proof.
  unfold load_entries. cbn [foldl mbind option_bind].
  destruct (load_entry s (k, v)); [done | apply load_entries_None].
Qed.

Lemma config_key_typed (key : string) : key ∈ CONFIG_KEYS → key ∈ TYPED_KEYS.
Proof. intros H. by right. Qed.

Lemma setitem_getitem (s s1 : SessionState) (k key : string) (v : value) :
  setitem k v s = Some s1 →
  key ∈ CONFIG_KEYS →
  getitem s1 key = if bool_decide (k = key) then Some v else getitem s key.
Proof.
  intros Hset Hkey. destruct s as [a df c d e f g h i j o].
  destruct (decide (k ∈ TYPED_KEYS)) as [Hk|Hk].
  - unfold TYPED_KEYS, CONFIG_KEYS in Hk.
    repeat (apply elem_of_cons in Hk as [->|Hk]); [.. | by apply elem_of_nil in Hk];
      vm_compute in Hset; try discriminate; destruct v; try discriminate;
      injection Hset as <-;
      unfold CONFIG_KEYS in Hkey;
      repeat (apply elem_of_cons in Hkey as [->|Hkey]);
      first [reflexivity | by apply elem_of_nil in Hkey].
  - assert (Hne : ∀ x, x ∈ TYPED_KEYS → k ≠ x) by (by intros x Hx ->).
    unfold setitem in Hset.
    rewrite !bool_decide_false in Hset by (apply Hne; compute_done).
    injection Hset as <-.
    rewrite bool_decide_false by (apply Hne; by apply config_key_typed).
    unfold CONFIG_KEYS in Hkey.
    repeat (apply elem_of_cons in Hkey as [->|Hkey]);
      first [reflexivity | by apply elem_of_nil in Hkey].
Qed.

(** One entry: it installs its value under its own key and leaves the
    other settings and, unless it is the topics entry, the table alone. *)
Lemma load_entry_getitem (s s1 : SessionState) (k key : string) (v : value) :
  load_entry s (k, v) = Some s1 →
  key ∈ CONFIG_KEYS →
  getitem s1 key = if bool_decide (k = key) then Some v else getitem s key.
Proof.
  intros Hload Hkey. unfold load_entry in Hload. case_bool_decide as Hk.
  - subst k. destruct v; try discriminate. injection Hload as <-.
    destruct s as [a df c d e f g h i j o].
    unfold CONFIG_KEYS in Hkey.
    repeat (apply elem_of_cons in Hkey as [->|Hkey]);
      first [reflexivity | by apply elem_of_nil in Hkey].
  - destruct (in_session_state k s) eqn:Hin.
    + by apply setitem_getitem.
    + injection Hload as <-. rewrite bool_decide_false; [done|].
      intros ->. unfold in_session_state in Hin.
      apply orb_false_iff in Hin as [Hin _]. apply bool_decide_eq_false in Hin.
      by apply Hin, config_key_typed.
Qed.

Lemma load_entry_topics (s s1 : SessionState) (k : string) (v : value) :
  load_entry s (k, v) = Some s1 →
  if bool_decide (k = "topics_df_as_list"%string)
  then ∃ records, v = VRecords records ∧ topics_df s1 = DataFrame_of_records records
  else topics_df s1 = topics_df s.
Proof.
  intros Hload. destruct s as [a df c d e f g h i j o].
  unfold load_entry in Hload. case_bool_decide as Hk.
  - destruct v; try discriminate. injection Hload as <-. by eexists.
  - destruct (in_session_state k _); [|by injection Hload as <-].
    unfold setitem in Hload.
    repeat (case_bool_decide; [destruct v; try discriminate; by injection Hload as <-|]).
    by injection Hload as <-.
Qed.

Lemma load_entries_getitem (key : string) (d : PyDict.dict value) :
  key ∈ CONFIG_KEYS →
  ∀ s s',
    load_entries d s = Some s' →
    (key ∉ PyDict.keys d → getitem s' key = getitem s key) ∧
    (NoDup (PyDict.keys d) → ∀ v, PyDict.get key d = Some v → getitem s' key = Some v).
Proof.
  intros Hkey. induction d as [|[k v] d IH]; intros s s' Hload.
  - injection Hload as <-. split; [done | by intros _ v].
  - rewrite load_entries_cons in Hload.
    destruct (load_entry s (k, v)) as [s1|] eqn:Hentry; [|discriminate].
    cbn [mbind option_bind] in Hload.
    destruct (IH _ _ Hload) as [IH1 IH2].
    pose proof (load_entry_getitem _ _ _ _ _ Hentry Hkey) as H1.
    unfold PyDict.keys in *. cbn [fmap list_fmap fst]. split.
    + intros [Hne Hnotin]%not_elem_of_cons.
      rewrite IH1 by done. rewrite H1. rewrite bool_decide_false; [done | congruence].
    + intros [Hk Hnd]%NoDup_cons v' Hget. cbn [PyDict.get] in Hget.
      case_bool_decide as Heq.
      * subst k. injection Hget as <-. rewrite IH1 by done.
        rewrite H1. by rewrite bool_decide_true.
      * by apply IH2.
Qed.

Lemma load_entries_topics (d : PyDict.dict value) :
  ∀ s s',
    load_entries d s = Some s' →
    ("topics_df_as_list"%string ∉ PyDict.keys d → topics_df s' = topics_df s) ∧
    (NoDup (PyDict.keys d) →
     ∀ v, PyDict.get "topics_df_as_list" d = Some v →
          ∃ records, v = VRecords records ∧ topics_df s' = DataFrame_of_records records).
Proof.
  induction d as [|[k v] d IH]; intros s s' Hload.
  - injection Hload as <-. split; [done | by intros _ v].
  - rewrite load_entries_cons in Hload.
    destruct (load_entry s (k, v)) as [s1|] eqn:Hentry; [|discriminate].
    cbn [mbind option_bind] in Hload.
    destruct (IH _ _ Hload) as [IH1 IH2].
    pose proof (load_entry_topics _ _ _ _ Hentry) as H1.
    unfold PyDict.keys in *. cbn [fmap list_fmap fst]. split.
    + intros [Hne Hnotin]%not_elem_of_cons.
      rewrite IH1 by done. rewrite bool_decide_false in H1; [done | congruence].
    + intros [Hk Hnd]%NoDup_cons v' Hget. cbn [PyDict.get] in Hget.
      case_bool_decide as Heq.
      * subst k. injection Hget as <-. rewrite bool_decide_true in H1 by done.
        destruct H1 as (records & -> & Htable). exists records.
        split; [done|]. by rewrite IH1.
      * by apply IH2.
Qed.

Lemma load_config_from_dict_entries (d : PyDict.dict value) (s : SessionState) :
  load_config_from_dict d s =
  load_entries d s ≫= λ s',
    Some (set_others (<["config_loaded_successfully"%string := VBool true]> (others s')) s').
Proof. reflexivity. Qed.

Lemma set_others_getitem (m : gmap string value) (s : SessionState) (key : string) :
  key ∈ CONFIG_KEYS → getitem (set_others m s) key = getitem s key.
Proof.
  intros Hkey. destruct s. unfold CONFIG_KEYS in Hkey.
  repeat (apply elem_of_cons in Hkey as [->|Hkey]);
    first [reflexivity | by apply elem_of_nil in Hkey].
Qed.

Lemma set_others_topics (m : gmap string value) (s : SessionState) :
  topics_df (set_others m s) = topics_df s ∧ others (set_others m s) = m.
Proof. by destruct s. Qed.

Lemma init_session_state_table (st : SessionState) :
  topics_df (init_session_state st) =
  if df_empty (topics_df st) then DEFAULT_TOPICS_DF else topics_df st.
Proof.
  destruct st as [a df c d e f g h i j k]. unfold init_session_state.
  cbn [set_others topics_df]. by destruct (df_empty df).
Qed.

(** X18.  Loading merges: a setting whose key the document lacks keeps its value,
    the topic table stays when there is no topics entry, an entry under a
    key that the session does not hold is ignored, and the flag
    [config_loaded_successfully] is set. *)
Theorem load_config_merges (d : PyDict.dict value) (s s' : SessionState) :
  load_config_from_dict d s = Some s' →
  (∀ key, key ∈ CONFIG_KEYS → key ∉ PyDict.keys d → getitem s' key = getitem s key) ∧
  ("topics_df_as_list"%string ∉ PyDict.keys d → topics_df s' = topics_df s) ∧
  (∀ k v, k ≠ "topics_df_as_list"%string → in_session_state k s = false →
          load_config_from_dict ((k, v) :: d) s = Some s') ∧
  others s' !! "config_loaded_successfully"%string = Some (VBool true).
Proof.
  rewrite load_config_from_dict_entries. intros Hload.
  destruct (load_entries d s) as [s1|] eqn:Hentries; [|discriminate].
  cbn [mbind option_bind] in Hload. injection Hload as <-. split_and!.
  - intros key Hkey Hnotin. rewrite set_others_getitem by done.
    by apply (load_entries_getitem key d Hkey s s1).
  - intros Hnotin. rewrite (proj1 (set_others_topics _ _)).
    by apply (load_entries_topics d s s1).
  - intros k v Hk Hin. rewrite load_config_from_dict_entries, load_entries_cons.
    unfold load_entry. rewrite bool_decide_false by done. rewrite Hin.
    cbn [mbind option_bind]. by rewrite Hentries.
  - rewrite (proj2 (set_others_topics _ _)). apply lookup_insert_eq.
Qed.

Lemma load_config_merges_witness :
  ∃ s', load_config_from_dict partial_document demo_session = Some s' ∧
        model_name s' = lit "gpt-4.1" ∧
        getitem s' "brand_guidelines" = getitem demo_session "brand_guidelines" ∧
        topics_df s' = topics_df demo_session ∧
        others s' !! "config_loaded_successfully"%string = Some (VBool true).
Proof.
  eexists. split; [by vm_compute|].
  split; [by vm_compute|].
  destruct (load_config_merges partial_document demo_session _ ltac:(by vm_compute))
    as (Hkeep & Htable & _ & Hflag).
  split_and!.
  - apply Hkeep; compute_done.
  - apply Htable. compute_done.
  - exact Hflag.
Defined.

(** X19.  Loading installs: every setting of the document is what the session
    holds afterwards, and the topic table is the one built from the
    document's records; when that list is empty, the next
    [init_session_state] puts the two default topics back. *)
Theorem load_config_installs (d : PyDict.dict value) (s s' : SessionState) :
  load_config_from_dict d s = Some s' →
  NoDup (PyDict.keys d) →
  (∀ key v, key ∈ CONFIG_KEYS → PyDict.get key d = Some v → getitem s' key = Some v) ∧
  (∀ v, PyDict.get "topics_df_as_list" d = Some v →
        ∃ records, v = VRecords records ∧
                   topics_df s' = DataFrame_of_records records ∧
                   (records = [] →
                    topics_df (init_session_state s') = DEFAULT_TOPICS_DF)).
Proof.
  rewrite load_config_from_dict_entries. intros Hload Hnd.
  destruct (load_entries d s) as [s1|] eqn:Hentries; [|discriminate].
  cbn [mbind option_bind] in Hload. injection Hload as <-. split.
  - intros key v Hkey Hget. rewrite set_others_getitem by done.
    by apply (load_entries_getitem key d Hkey s s1).
  - intros v Hget.
    destruct (proj2 (load_entries_topics d s s1 Hentries) Hnd v Hget)
      as (records & -> & Htable).
    exists records. split; [done|].
    rewrite init_session_state_table, (proj1 (set_others_topics _ _)), Htable.
    split; [done|]. by intros ->.
Qed.

Lemma load_config_installs_witness :
  ∃ s', load_config_from_dict document_without_topics demo_session = Some s' ∧
        getitem s' "brand_guidelines" = Some (VStr (lit "Plain and direct")) ∧
        topics_df (init_session_state s') = DEFAULT_TOPICS_DF.
Proof.
  eexists. split; [by vm_compute|].
  destruct (load_config_installs document_without_topics demo_session _
              ltac:(by vm_compute) ltac:(compute_done)) as [Hset Htable].
  split.
  - apply Hset; [compute_done | reflexivity].
  - destruct (Htable (VRecords []) eq_refl) as (records & Hv & _ & Hinit).
    injection Hv as <-. by apply Hinit.
Defined.

(** *** The model selector *)

(** X20.  The select box never fails to find its default: it shows the model of
    the session when that is one of the three options and the Gemini model
    otherwise, and each of the three options has a provider branch in
    [generate_content]. *)
Theorem selector_index_supported (model_name : str) :
  ∃ i choice,
    selector_index model_name = Some i ∧
    MODEL_OPTIONS !! i = Some choice ∧
    choice = (if bool_decide (model_name ∈ MODEL_OPTIONS) then model_name
              else lit "gemini-2.5-pro-exp-03-25") ∧
    is_Some (provider_of choice) ∧
    Forall (λ option, is_Some (provider_of option)) MODEL_OPTIONS.
Proof.
  assert (Hall : Forall (λ option, is_Some (provider_of option)) MODEL_OPTIONS).
  { unfold MODEL_OPTIONS.
    repeat (apply Forall_cons_2; [vm_compute; by eexists|]). apply Forall_nil_2. }
  unfold selector_index. case_bool_decide as Hin.
  - unfold MODEL_OPTIONS in Hin.
    repeat (apply elem_of_cons in Hin as [->|Hin]); [.. | by apply elem_of_nil in Hin].
    + exists 0%nat. eexists. split_and!;
        [by vm_compute | reflexivity | done | vm_compute; by eexists | done].
    + exists 1%nat. eexists. split_and!;
        [by vm_compute | reflexivity | done | vm_compute; by eexists | done].
    + exists 2%nat. eexists. split_and!;
        [by vm_compute | reflexivity | done | vm_compute; by eexists | done].
  - exists 0%nat. eexists. split_and!;
        [by vm_compute | reflexivity | done | vm_compute; by eexists | done].
Qed.

(** *** The topics upload *)

Lemma get_zip_app (cols : list string) (col c : string) (v : cell) :
  ∀ row, length row = length cols →
    PyDict.get c (zip (cols ++ [col]) (row ++ [v])) =
    match PyDict.get c (zip cols row) with
    | Some x => Some x
    | None => if bool_decide (c = col) then Some v else None
    end.
Proof.
  induction cols as [|k cols IH]; intros [|x row] Hlen; try discriminate.
  - simpl. by destruct (bool_decide (c = col)).
  - simpl. destruct (bool_decide (c = k)); [done|]. apply IH. simpl in Hlen. lia.
Qed.

Lemma get_zip_is_Some (cols : list string) (c : string) :
  ∀ row : list cell, length row = length cols →
    c ∈ cols → is_Some (PyDict.get c (zip cols row)).
Proof.
  induction cols as [|k cols IH]; intros [|x row] Hlen Hc; try discriminate.
  - by apply elem_of_nil in Hc.
  - simpl. case_bool_decide as Hk; [by eexists|].
    apply IH; [simpl in Hlen; lia|]. apply elem_of_cons in Hc as [->|Hc]; done.
Qed.

(** What the loop over the three labels makes of a table, row by row. *)
Lemma ensure_columns_rows (todo : list string) :
  ∀ df, ∃ g,
    df_rows (foldl ensure_column df todo) = g <$> df_rows df ∧
    (∀ c, c ∈ todo → c ∈ df_columns (foldl ensure_column df todo)) ∧
    ∀ row, length row = length (df_columns df) →
      length (g row) = length (df_columns (foldl ensure_column df todo)) ∧
      ∀ c, cell_at (foldl ensure_column df todo) (g row) c =
           match cell_at df row c with
           | Some x => Some x
           | None => if bool_decide (c ∈ todo) then Some (Text []) else None
           end.
Proof.
  induction todo as [|col todo IH]; intros df.
  - exists id. cbn [foldl]. split_and!.
    + by rewrite list_fmap_id.
    + intros c Hc. by apply elem_of_nil in Hc.
    + intros row Hlen. split; [done|]. intros c. cbn [id].
      destruct (cell_at df row c); [done|]. rewrite bool_decide_false; [done|].
      apply not_elem_of_nil.
  - cbn [foldl]. unfold ensure_column at 2 4 6 8.
    destruct (bool_decide_reflect (col ∈ df_columns df)) as [Hcol|Hcol].
    + destruct (IH df) as (g & Hrows & Hcols & Hcells). exists g. split_and!.
      * done.
      * intros c [->|Hc]%elem_of_cons; [|by apply Hcols].
        assert (Hmono : ∀ todo' df', col ∈ df_columns df' →
                          col ∈ df_columns (foldl ensure_column df' todo')).
        { clear. induction todo' as [|t todo' IH']; intros df' Hin; [done|].
          cbn [foldl]. apply IH'. unfold ensure_column.
          case_bool_decide; [done|]. cbn [df_add_column df_columns].
          apply elem_of_app. by left. }
        by apply Hmono.
      * intros row Hlen. destruct (Hcells row Hlen) as [Hl Hc]. split; [done|].
        intros c. rewrite Hc. destruct (cell_at df row c) eqn:Hcell; [done|].
        destruct (decide (c = col)) as [->|Hne].
        -- destruct (get_zip_is_Some (df_columns df) col row Hlen Hcol) as [x Hx].
           unfold cell_at in Hcell. congruence.
        -- destruct (bool_decide_reflect (c ∈ todo)) as [Ht|Ht].
           ++ rewrite bool_decide_true; [done | by right].
           ++ rewrite bool_decide_false; [done|].
              intros [?|?]%elem_of_cons; done.
    + destruct (IH (df_add_column col (Text []) df)) as (g & Hrows & Hcols & Hcells).
      exists (λ row, g (row ++ [Text []])). split_and!.
      * rewrite Hrows. cbn [df_add_column df_rows]. by rewrite <- list_fmap_compose.
      * intros c [->|Hc]%elem_of_cons; [|by apply Hcols].
        assert (Hmono : ∀ todo' df', col ∈ df_columns df' →
                          col ∈ df_columns (foldl ensure_column df' todo')).
        { clear. induction todo' as [|t todo' IH']; intros df' Hin; [done|].
          cbn [foldl]. apply IH'. unfold ensure_column.
          case_bool_decide; [done|]. cbn [df_add_column df_columns].
          apply elem_of_app. by left. }
        apply Hmono. cbn [df_add_column df_columns]. apply elem_of_app. right. by left.
      * intros row Hlen.
        destruct (Hcells (row ++ [Text []])) as [Hl Hc].
        { cbn [df_add_column df_columns]. rewrite !length_app. simpl. lia. }
        split; [done|]. intros c. rewrite Hc.
        unfold cell_at at 1. cbn [df_add_column df_columns].
        rewrite get_zip_app by done. fold (cell_at df row c).
        destruct (cell_at df row c); [done|].
        case_bool_decide as Hc1.
        -- subst c. rewrite bool_decide_true; [done | by left].
        -- destruct (bool_decide_reflect (c ∈ todo)) as [Ht|Ht].
           ++ rewrite bool_decide_true; [done | by right].
           ++ rewrite bool_decide_false; [done|].
              intros [?|?]%elem_of_cons; done.
Qed.

Lemma get_zip_fmap (f : string → cell) (cols : list string) (c : string) :
  c ∈ cols → PyDict.get c (zip cols (f <$> cols)) = Some (f c).
Proof.
  induction cols as [|k cols IH]; intros Hc; [by apply elem_of_nil in Hc|].
  simpl. case_bool_decide as Hk; [by subst|].
  apply IH. apply elem_of_cons in Hc as [->|Hc]; done.
Qed.

(** X21.  An uploaded table, whatever its columns, becomes a table with exactly
    the three topic columns and as many rows: no [KeyError] is raised, a
    cell under one of the three labels is kept as it is (a missing value
    included), a label that the file lacks gives the empty string in every
    row, and every other column is dropped. *)
Theorem uploaded_topics_columns (df : DataFrame) :
  Forall (λ row, length row = length (df_columns df)) (df_rows df) →
  uploaded_topics df =
    Some {| df_columns := TOPIC_COLUMNS;
            df_rows := (λ row, (λ c, default (Text []) (cell_at df row c)) <$> TOPIC_COLUMNS)
                       <$> df_rows df |} ∧
  ∀ df', uploaded_topics df = Some df' →
         df_wf df' ∧ length (df_rows df') = length (df_rows df).
Proof.
  intros Hrect.
  assert (Hup : uploaded_topics df =
                Some {| df_columns := TOPIC_COLUMNS;
                        df_rows := (λ row, (λ c, default (Text []) (cell_at df row c))
                                             <$> TOPIC_COLUMNS) <$> df_rows df |}).
  { unfold uploaded_topics, df_select.
    destruct (ensure_columns_rows TOPIC_COLUMNS df) as (g & Hrows & Hcols & Hcells).
    assert (forallb (λ c, bool_decide (c ∈ df_columns (foldl ensure_column df TOPIC_COLUMNS)))
              TOPIC_COLUMNS = true) as ->.
    { apply forallb_forall. intros c Hc. apply bool_decide_eq_true.
      apply Hcols. by apply list_elem_of_In. }
    do 2 f_equal. rewrite Hrows, <- list_fmap_compose.
    apply Forall_fmap_ext. eapply Forall_impl; [exact Hrect|].
    intros row Hlen. simpl in Hlen. cbn [compose].
    destruct (Hcells row Hlen) as [_ Hc].
    apply list_fmap_ext. intros i c Hi.
    fold (cell_at (foldl ensure_column df TOPIC_COLUMNS) (g row) c). rewrite Hc.
    destruct (cell_at df row c); [done|].
    rewrite bool_decide_true; [done|]. by eapply list_elem_of_lookup_2. }
  split; [done|]. rewrite Hup. intros df' [= <-]. split.
  - split; [compute_done|]. cbn [df_rows df_columns].
    apply Forall_fmap, Forall_forall. intros row _. reflexivity.
  - cbn [df_rows]. by rewrite length_fmap.
Qed.

Lemma uploaded_topics_columns_witness :
  uploaded_topics uploaded_table =
    Some {| df_columns := TOPIC_COLUMNS;
            df_rows := [ [Text (lit "how to hire baristas"); Text []; Text []];
                         [Text (lit "how to hire line cooks"); Text []; Text []] ] |}.
Proof.
  exact (proj1 (uploaded_topics_columns uploaded_table ltac:(repeat constructor))).
Defined.
